(** * analyze_flow.py: the cache layer and the generators it fronts

    A shallow embedding of [src/analyze_flow.py]: the cache store
    ([get_cache_key], [get_cached_item], [cache_item]), the description
    generator ([describe_interaction]), the interaction extractor
    ([extract_user_interactions]), the narrative generator
    ([generate_flow_summary]) and the image synthesizer
    ([generate_image_prompt], [generate_social_media_image]).

    Conventions of the embedding.
    - A Python [str] is the [string] of its UTF-8 bytes, so [s.encode()] is
      the identity.
    - Python values that reach the cache are the inductive [value].
    - The file system, the descriptors of the process and the calls made
      to the outside (chat completion, image generation, HTTP download)
      form the [world]; a function of the script is a computation in the
      monad [M], which threads the world and a possible exception.
    - The outside ([openai_client] for the two services, [platform] for
      the network and the clock) answers a call as a function of the
      calls made before it, which is how a service that answers
      differently each time is represented.
    - [print] is not part of the model: no property below is about the
      console. *)

From Stdlib Require Import ZArith QArith Ascii String DecimalString.
From stdpp Require Import base option list gmap strings.

Open Scope Z_scope.

(* ===================================================================== *)
(** ** Python strings as UTF-8 byte strings *)
(* ===================================================================== *)

Module PyStr.

Definition byte_of (c : ascii) : Z := Z.of_N (N_of_ascii c).
Definition char_of (b : Z) : ascii := ascii_of_N (Z.to_N b).

Fixpoint bytes (s : string) : list Z :=
  match s with
  | EmptyString => []
  | String c s' => byte_of c :: bytes s'
  end.

Fixpoint of_bytes (l : list Z) : string :=
  match l with
  | [] => EmptyString
  | b :: l' => String (char_of b) (of_bytes l')
  end.

(** [a + b] on strings. *)
Definition cat (a b : string) : string := String.append a b.

(** [sep.join(l)]. *)
Fixpoint join (sep : string) (l : list string) : string :=
  match l with
  | [] => EmptyString
  | [x] => x
  | x :: l' => cat x (cat sep (join sep l'))
  end.

(** [bool(s)]: a string is true when it is not empty. *)
Definition nonempty (s : string) : bool :=
  match s with EmptyString => false | String _ _ => true end.

Definition eqb (a b : string) : bool := bool_decide (a = b).

(** [sub in s]. *)
Fixpoint contains (sub s : string) : bool :=
  String.prefix sub s ||
  match s with
  | EmptyString => false
  | String _ s' => contains sub s'
  end.

(** [s.replace(a, b)] for one-character strings [a] and [b]. *)
Fixpoint replace_char (a b : ascii) (s : string) : string :=
  match s with
  | EmptyString => EmptyString
  | String c s' =>
      String (if Ascii.eqb c a then b else c) (replace_char a b s')
  end.

(** [s.lower()] on the ASCII letters. *)
Definition lower_char (c : ascii) : ascii :=
  let n := byte_of c in
  if (65 <=? n) && (n <=? 90) then char_of (n + 32) else c.

Fixpoint lower (s : string) : string :=
  match s with
  | EmptyString => EmptyString
  | String c s' => String (lower_char c) (lower s')
  end.

(** A byte [10xxxxxx] continues the code point that started before it. *)
Definition is_continuation (c : ascii) : bool :=
  let n := byte_of c in (128 <=? n) && (n <? 192).

(** [s[:n]]: the first [n] code points. *)
Fixpoint take (n : nat) (s : string) : string :=
  match s with
  | EmptyString => EmptyString
  | String c s' =>
      if is_continuation c then String c (take n s')
      else match n with
           | O => EmptyString
           | S n' => String c (take n' s')
           end
  end.

(** The code points of [s], each as the string of its bytes. *)
Fixpoint code_points (s : string) : list string :=
  match s with
  | EmptyString => []
  | String c s' =>
      let starts_inside :=
        match s' with
        | String c' _ => is_continuation c'
        | EmptyString => false
        end in
      match code_points s' with
      | p :: r =>
          if starts_inside then String c p :: r
          else String c EmptyString :: p :: r
      | [] => [String c EmptyString]
      end
  end.

(** The number of the code point whose bytes are [cp]; -1 when [cp] is
    not the encoding of one code point. *)
Definition code_point_value (cp : string) : Z :=
  match bytes cp with
  | [b0] => if b0 <? 128 then b0 else -1
  | [b0; b1] => (b0 mod 32) * 64 + b1 mod 64
  | [b0; b1; b2] => (b0 mod 16) * 4096 + (b1 mod 64) * 64 + b2 mod 64
  | [b0; b1; b2; b3] =>
      (b0 mod 8) * 262144 + (b1 mod 64) * 4096 + (b2 mod 64) * 64 + b3 mod 64
  | _ => -1
  end.

(** The code points on which [str.isspace] holds, as UTF-8. *)
Definition whitespace : list (list Z) :=
  [ [9]; [10]; [11]; [12]; [13]; [28]; [29]; [30]; [31]; [32];
    [194; 133]; [194; 160]; [225; 154; 128];
    [226; 128; 128]; [226; 128; 129]; [226; 128; 130]; [226; 128; 131];
    [226; 128; 132]; [226; 128; 133]; [226; 128; 134]; [226; 128; 135];
    [226; 128; 136]; [226; 128; 137]; [226; 128; 138];
    [226; 128; 168]; [226; 128; 169]; [226; 128; 175];
    [226; 129; 159]; [227; 128; 128] ].

Fixpoint drop_prefix (p l : list Z) : option (list Z) :=
  match p, l with
  | [], _ => Some l
  | _ :: _, [] => None
  | a :: p', b :: l' => if a =? b then drop_prefix p' l' else None
  end.

(** The input without its first code point, when that one is a space. *)
Fixpoint drop_space (ws : list (list Z)) (l : list Z) : option (list Z) :=
  match ws with
  | [] => None
  | p :: ws' =>
      match drop_prefix p l with
      | Some r => Some r
      | None => drop_space ws' l
      end
  end.

Fixpoint lstrip_fuel (ws : list (list Z)) (fuel : nat) (l : list Z)
  : list Z :=
  match fuel with
  | O => l
  | S fuel' =>
      match drop_space ws l with
      | Some r => lstrip_fuel ws fuel' r
      | None => l
      end
  end.

Definition lstrip_bytes (l : list Z) : list Z :=
  lstrip_fuel whitespace (length l) l.

Definition rstrip_bytes (l : list Z) : list Z :=
  rev (lstrip_fuel (map (@rev Z) whitespace) (length l) (rev l)).

(** [s.strip()]. *)
Definition strip (s : string) : string :=
  of_bytes (rstrip_bytes (lstrip_bytes (bytes s))).

(** [str(n)] for an integer. *)
Definition of_Z (z : Z) : string := NilZero.string_of_int (Z.to_int z).

Definition of_nat (n : nat) : string := of_Z (Z.of_nat n).

(** Whether [s] holds a NUL byte. *)
Fixpoint has_nul (s : string) : bool :=
  match s with
  | EmptyString => false
  | String c s' => (byte_of c =? 0) || has_nul s'
  end.

(** The double quote, as a one-character string. *)
Definition dquote : string := String (ascii_of_nat 34) EmptyString.

(** The line feed, as a one-character string. *)
Definition nl : string := String (ascii_of_nat 10) EmptyString.

End PyStr.

(* ===================================================================== *)
(** ** hashlib.md5 *)
(* ===================================================================== *)

Module MD5.

Definition modulus : Z := 2 ^ 32.

Definition add32 (x y : Z) : Z := (x + y) mod modulus.

Definition not32 (x : Z) : Z := Z.lxor x (modulus - 1).

Definition rotl32 (x c : Z) : Z :=
  Z.lor (Z.shiftl x c mod modulus) (Z.shiftr x (32 - c)).

Definition shifts : list Z :=
  [ 7; 12; 17; 22; 7; 12; 17; 22; 7; 12; 17; 22; 7; 12; 17; 22;
    5;  9; 14; 20; 5;  9; 14; 20; 5;  9; 14; 20; 5;  9; 14; 20;
    4; 11; 16; 23; 4; 11; 16; 23; 4; 11; 16; 23; 4; 11; 16; 23;
    6; 10; 15; 21; 6; 10; 15; 21; 6; 10; 15; 21; 6; 10; 15; 21 ].

(** [floor (2^32 * |sin (i + 1)|)] for [i] from 0 to 63. *)
Definition sines : list Z :=
  [ 0xd76aa478; 0xe8c7b756; 0x242070db; 0xc1bdceee; 0xf57c0faf; 0x4787c62a; 0xa8304613; 0xfd469501;
    0x698098d8; 0x8b44f7af; 0xffff5bb1; 0x895cd7be; 0x6b901122; 0xfd987193; 0xa679438e; 0x49b40821;
    0xf61e2562; 0xc040b340; 0x265e5a51; 0xe9b6c7aa; 0xd62f105d; 0x02441453; 0xd8a1e681; 0xe7d3fbc8;
    0x21e1cde6; 0xc33707d6; 0xf4d50d87; 0x455a14ed; 0xa9e3e905; 0xfcefa3f8; 0x676f02d9; 0x8d2a4c8a;
    0xfffa3942; 0x8771f681; 0x6d9d6122; 0xfde5380c; 0xa4beea44; 0x4bdecfa9; 0xf6bb4b60; 0xbebfbc70;
    0x289b7ec6; 0xeaa127fa; 0xd4ef3085; 0x04881d05; 0xd9d4d039; 0xe6db99e5; 0x1fa27cf8; 0xc4ac5665;
    0xf4292244; 0x432aff97; 0xab9423a7; 0xfc93a039; 0x655b59c3; 0x8f0ccc92; 0xffeff47d; 0x85845dd1;
    0x6fa87e4f; 0xfe2ce6e0; 0xa3014314; 0x4e0811a1; 0xf7537e82; 0xbd3af235; 0x2ad7d2bb; 0xeb86d391 ].

Record state := State { sa : Z; sb : Z; sc : Z; sd : Z }.

Definition init : state :=
  State 0x67452301 0xefcdab89 0x98badcfe 0x10325476.

(** The mixing function of step [i] and the index of the message word
    it reads. *)
Definition mix (i b c d : Z) : Z * Z :=
  if i <? 16 then (Z.lor (Z.land b c) (Z.land (not32 b) d), i)
  else if i <? 32 then
    (Z.lor (Z.land d b) (Z.land (not32 d) c), (5 * i + 1) mod 16)
  else if i <? 48 then (Z.lxor (Z.lxor b c) d, (3 * i + 5) mod 16)
  else (Z.lxor c (Z.lor b (not32 d)), (7 * i) mod 16).

Definition step (m : list Z) (st : state) (i : Z) : state :=
  let '(f, g) := mix i (sb st) (sc st) (sd st) in
  let f' :=
    add32 (add32 (add32 f (sa st)) (nth (Z.to_nat i) sines 0))
          (nth (Z.to_nat g) m 0) in
  State (sd st)
        (add32 (sb st) (rotl32 f' (nth (Z.to_nat i) shifts 0)))
        (sb st) (sc st).

(** Four bytes, least significant first, as one word. *)
Definition word_le (b0 b1 b2 b3 : Z) : Z :=
  b0 + 256 * (b1 + 256 * (b2 + 256 * b3)).

Fixpoint words (fuel : nat) (l : list Z) : list Z :=
  match fuel, l with
  | S fuel', b0 :: b1 :: b2 :: b3 :: l' =>
      word_le b0 b1 b2 b3 :: words fuel' l'
  | _, _ => []
  end.

Definition compress (st : state) (block : list Z) : state :=
  let m := words 16 block in
  let st' := fold_left (step m) (map Z.of_nat (seq 0 64)) st in
  State (add32 (sa st) (sa st')) (add32 (sb st) (sb st'))
        (add32 (sc st) (sc st')) (add32 (sd st) (sd st')).

(** [n] as [k] bytes, least significant first. *)
Fixpoint bytes_le (k : nat) (n : Z) : list Z :=
  match k with
  | O => []
  | S k' => n mod 256 :: bytes_le k' (n / 256)
  end.

(** The message, one bit, zeros up to 56 modulo 64, and the length in
    bits on eight bytes. *)
Definition pad (msg : list Z) : list Z :=
  let len := Z.of_nat (length msg) in
  let zeros := Z.to_nat ((55 - len) mod 64) in
  msg ++ [128] ++ repeat 0 zeros ++ bytes_le 8 ((8 * len) mod 2 ^ 64).

Fixpoint blocks (fuel : nat) (st : state) (l : list Z) : state :=
  match fuel with
  | O => st
  | S fuel' =>
      match l with
      | [] => st
      | _ => blocks fuel' (compress st (firstn 64 l)) (skipn 64 l)
      end
  end.

Definition digest (msg : list Z) : list Z :=
  let p := pad msg in
  let st := blocks (length p) init p in
  bytes_le 4 (sa st) ++ bytes_le 4 (sb st)
    ++ bytes_le 4 (sc st) ++ bytes_le 4 (sd st).

Definition hex_digit (n : Z) : ascii :=
  if n <? 10 then PyStr.char_of (48 + n) else PyStr.char_of (87 + n).

Fixpoint hex (l : list Z) : string :=
  match l with
  | [] => EmptyString
  | b :: l' => String (hex_digit (b / 16)) (String (hex_digit (b mod 16)) (hex l'))
  end.

(** [hashlib.md5(data).hexdigest()]. *)
Definition hexdigest (data : string) : string := hex (digest (PyStr.bytes data)).

End MD5.

(* ===================================================================== *)
(** ** Python values *)
(* ===================================================================== *)

(** The values a cache file can decode to, and the tuples the script
    builds from them.  JSON numbers with a fraction or an exponent are
    not represented.  A [VDict] lists its items in insertion order, its
    keys distinct; [dict_lookup] reads the first binding of a key. *)
#[warnings="-register-all"] Inductive value :=
| VNone
| VBool (b : bool)
| VInt (n : Z)
| VStr (s : string)
| VList (l : list value)
| VDict (d : list (string * value))
| VTuple (l : list value).

Module PyVal.

(** [bool(v)]. *)
Definition truthy (v : value) : bool :=
  match v with
  | VNone => false
  | VBool b => b
  | VInt n => negb (n =? 0)
  | VStr s => PyStr.nonempty s
  | VList l | VTuple l => match l with [] => false | _ => true end
  | VDict d => match d with [] => false | _ => true end
  end.

Fixpoint dict_lookup (k : string) (d : list (string * value))
  : option value :=
  match d with
  | [] => None
  | (k', v) :: d' => if PyStr.eqb k k' then Some v else dict_lookup k d'
  end.

Definition hex2 (n : Z) : string :=
  String (MD5.hex_digit (n / 16)) (String (MD5.hex_digit (n mod 16)) EmptyString).

Definition escape_char (q : ascii) (c : ascii) : string :=
  let n := PyStr.byte_of c in
  if Ascii.eqb c q || (n =? 92) then String (PyStr.char_of 92) (String c EmptyString)
  else if n =? 9 then "\t"
  else if n =? 10 then "\n"
  else if n =? 13 then "\r"
  else if (n <? 32) || (n =? 127) then "\x" +:+ hex2 n
  else String c EmptyString.

(** The code points from 128 on that [str.isprintable] rejects, as
    closed ranges (Unicode 14.0.0, the table of CPython 3.11). *)
Definition nonprintable : list (Z * Z) :=
  [
    (128, 160); (173, 173); (888, 889); (896, 899); (907, 907); (909, 909);
    (930, 930); (1328, 1328); (1367, 1368); (1419, 1420); (1424, 1424); (1480, 1487);
    (1515, 1518); (1525, 1541); (1564, 1564); (1757, 1757); (1806, 1807); (1867, 1868);
    (1970, 1983); (2043, 2044); (2094, 2095); (2111, 2111); (2140, 2141); (2143, 2143);
    (2155, 2159); (2191, 2199); (2274, 2274); (2436, 2436); (2445, 2446); (2449, 2450);
    (2473, 2473); (2481, 2481); (2483, 2485); (2490, 2491); (2501, 2502); (2505, 2506);
    (2511, 2518); (2520, 2523); (2526, 2526); (2532, 2533); (2559, 2560); (2564, 2564);
    (2571, 2574); (2577, 2578); (2601, 2601); (2609, 2609); (2612, 2612); (2615, 2615);
    (2618, 2619); (2621, 2621); (2627, 2630); (2633, 2634); (2638, 2640); (2642, 2648);
    (2653, 2653); (2655, 2661); (2679, 2688); (2692, 2692); (2702, 2702); (2706, 2706);
    (2729, 2729); (2737, 2737); (2740, 2740); (2746, 2747); (2758, 2758); (2762, 2762);
    (2766, 2767); (2769, 2783); (2788, 2789); (2802, 2808); (2816, 2816); (2820, 2820);
    (2829, 2830); (2833, 2834); (2857, 2857); (2865, 2865); (2868, 2868); (2874, 2875);
    (2885, 2886); (2889, 2890); (2894, 2900); (2904, 2907); (2910, 2910); (2916, 2917);
    (2936, 2945); (2948, 2948); (2955, 2957); (2961, 2961); (2966, 2968); (2971, 2971);
    (2973, 2973); (2976, 2978); (2981, 2983); (2987, 2989); (3002, 3005); (3011, 3013);
    (3017, 3017); (3022, 3023); (3025, 3030); (3032, 3045); (3067, 3071); (3085, 3085);
    (3089, 3089); (3113, 3113); (3130, 3131); (3141, 3141); (3145, 3145); (3150, 3156);
    (3159, 3159); (3163, 3164); (3166, 3167); (3172, 3173); (3184, 3190); (3213, 3213);
    (3217, 3217); (3241, 3241); (3252, 3252); (3258, 3259); (3269, 3269); (3273, 3273);
    (3278, 3284); (3287, 3292); (3295, 3295); (3300, 3301); (3312, 3312); (3315, 3327);
    (3341, 3341); (3345, 3345); (3397, 3397); (3401, 3401); (3408, 3411); (3428, 3429);
    (3456, 3456); (3460, 3460); (3479, 3481); (3506, 3506); (3516, 3516); (3518, 3519);
    (3527, 3529); (3531, 3534); (3541, 3541); (3543, 3543); (3552, 3557); (3568, 3569);
    (3573, 3584); (3643, 3646); (3676, 3712); (3715, 3715); (3717, 3717); (3723, 3723);
    (3748, 3748); (3750, 3750); (3774, 3775); (3781, 3781); (3783, 3783); (3790, 3791);
    (3802, 3803); (3808, 3839); (3912, 3912); (3949, 3952); (3992, 3992); (4029, 4029);
    (4045, 4045); (4059, 4095); (4294, 4294); (4296, 4300); (4302, 4303); (4681, 4681);
    (4686, 4687); (4695, 4695); (4697, 4697); (4702, 4703); (4745, 4745); (4750, 4751);
    (4785, 4785); (4790, 4791); (4799, 4799); (4801, 4801); (4806, 4807); (4823, 4823);
    (4881, 4881); (4886, 4887); (4955, 4956); (4989, 4991); (5018, 5023); (5110, 5111);
    (5118, 5119); (5760, 5760); (5789, 5791); (5881, 5887); (5910, 5918); (5943, 5951);
    (5972, 5983); (5997, 5997); (6001, 6001); (6004, 6015); (6110, 6111); (6122, 6127);
    (6138, 6143); (6158, 6158); (6170, 6175); (6265, 6271); (6315, 6319); (6390, 6399);
    (6431, 6431); (6444, 6447); (6460, 6463); (6465, 6467); (6510, 6511); (6517, 6527);
    (6572, 6575); (6602, 6607); (6619, 6621); (6684, 6685); (6751, 6751); (6781, 6782);
    (6794, 6799); (6810, 6815); (6830, 6831); (6863, 6911); (6989, 6991); (7039, 7039);
    (7156, 7163); (7224, 7226); (7242, 7244); (7305, 7311); (7355, 7356); (7368, 7375);
    (7419, 7423); (7958, 7959); (7966, 7967); (8006, 8007); (8014, 8015); (8024, 8024);
    (8026, 8026); (8028, 8028); (8030, 8030); (8062, 8063); (8117, 8117); (8133, 8133);
    (8148, 8149); (8156, 8156); (8176, 8177); (8181, 8181); (8191, 8207); (8232, 8239);
    (8287, 8303); (8306, 8307); (8335, 8335); (8349, 8351); (8385, 8399); (8433, 8447);
    (8588, 8591); (9255, 9279); (9291, 9311); (11124, 11125); (11158, 11158); (11508, 11512);
    (11558, 11558); (11560, 11564); (11566, 11567); (11624, 11630); (11633, 11646); (11671, 11679);
    (11687, 11687); (11695, 11695); (11703, 11703); (11711, 11711); (11719, 11719); (11727, 11727);
    (11735, 11735); (11743, 11743); (11870, 11903); (11930, 11930); (12020, 12031); (12246, 12271);
    (12284, 12288); (12352, 12352); (12439, 12440); (12544, 12548); (12592, 12592); (12687, 12687);
    (12772, 12783); (12831, 12831); (42125, 42127); (42183, 42191); (42540, 42559); (42744, 42751);
    (42955, 42959); (42962, 42962); (42964, 42964); (42970, 42993); (43053, 43055); (43066, 43071);
    (43128, 43135); (43206, 43213); (43226, 43231); (43348, 43358); (43389, 43391); (43470, 43470);
    (43482, 43485); (43519, 43519); (43575, 43583); (43598, 43599); (43610, 43611); (43715, 43738);
    (43767, 43776); (43783, 43784); (43791, 43792); (43799, 43807); (43815, 43815); (43823, 43823);
    (43884, 43887); (44014, 44015); (44026, 44031); (55204, 55215); (55239, 55242); (55292, 63743);
    (64110, 64111); (64218, 64255); (64263, 64274); (64280, 64284); (64311, 64311); (64317, 64317);
    (64319, 64319); (64322, 64322); (64325, 64325); (64451, 64466); (64912, 64913); (64968, 64974);
    (64976, 65007); (65050, 65055); (65107, 65107); (65127, 65127); (65132, 65135); (65141, 65141);
    (65277, 65280); (65471, 65473); (65480, 65481); (65488, 65489); (65496, 65497); (65501, 65503);
    (65511, 65511); (65519, 65531); (65534, 65535); (65548, 65548); (65575, 65575); (65595, 65595);
    (65598, 65598); (65614, 65615); (65630, 65663); (65787, 65791); (65795, 65798); (65844, 65846);
    (65935, 65935); (65949, 65951); (65953, 65999); (66046, 66175); (66205, 66207); (66257, 66271);
    (66300, 66303); (66340, 66348); (66379, 66383); (66427, 66431); (66462, 66462); (66500, 66503);
    (66518, 66559); (66718, 66719); (66730, 66735); (66772, 66775); (66812, 66815); (66856, 66863);
    (66916, 66926); (66939, 66939); (66955, 66955); (66963, 66963); (66966, 66966); (66978, 66978);
    (66994, 66994); (67002, 67002); (67005, 67071); (67383, 67391); (67414, 67423); (67432, 67455);
    (67462, 67462); (67505, 67505); (67515, 67583); (67590, 67591); (67593, 67593); (67638, 67638);
    (67641, 67643); (67645, 67646); (67670, 67670); (67743, 67750); (67760, 67807); (67827, 67827);
    (67830, 67834); (67868, 67870); (67898, 67902); (67904, 67967); (68024, 68027); (68048, 68049);
    (68100, 68100); (68103, 68107); (68116, 68116); (68120, 68120); (68150, 68151); (68155, 68158);
    (68169, 68175); (68185, 68191); (68256, 68287); (68327, 68330); (68343, 68351); (68406, 68408);
    (68438, 68439); (68467, 68471); (68498, 68504); (68509, 68520); (68528, 68607); (68681, 68735);
    (68787, 68799); (68851, 68857); (68904, 68911); (68922, 69215); (69247, 69247); (69290, 69290);
    (69294, 69295); (69298, 69375); (69416, 69423); (69466, 69487); (69514, 69551); (69580, 69599);
    (69623, 69631); (69710, 69713); (69750, 69758); (69821, 69821); (69827, 69839); (69865, 69871);
    (69882, 69887); (69941, 69941); (69960, 69967); (70007, 70015); (70112, 70112); (70133, 70143);
    (70162, 70162); (70207, 70271); (70279, 70279); (70281, 70281); (70286, 70286); (70302, 70302);
    (70314, 70319); (70379, 70383); (70394, 70399); (70404, 70404); (70413, 70414); (70417, 70418);
    (70441, 70441); (70449, 70449); (70452, 70452); (70458, 70458); (70469, 70470); (70473, 70474);
    (70478, 70479); (70481, 70486); (70488, 70492); (70500, 70501); (70509, 70511); (70517, 70655);
    (70748, 70748); (70754, 70783); (70856, 70863); (70874, 71039); (71094, 71095); (71134, 71167);
    (71237, 71247); (71258, 71263); (71277, 71295); (71354, 71359); (71370, 71423); (71451, 71452);
    (71468, 71471); (71495, 71679); (71740, 71839); (71923, 71934); (71943, 71944); (71946, 71947);
    (71956, 71956); (71959, 71959); (71990, 71990); (71993, 71994); (72007, 72015); (72026, 72095);
    (72104, 72105); (72152, 72153); (72165, 72191); (72264, 72271); (72355, 72367); (72441, 72703);
    (72713, 72713); (72759, 72759); (72774, 72783); (72813, 72815); (72848, 72849); (72872, 72872);
    (72887, 72959); (72967, 72967); (72970, 72970); (73015, 73017); (73019, 73019); (73022, 73022);
    (73032, 73039); (73050, 73055); (73062, 73062); (73065, 73065); (73103, 73103); (73106, 73106);
    (73113, 73119); (73130, 73439); (73465, 73647); (73649, 73663); (73714, 73726); (74650, 74751);
    (74863, 74863); (74869, 74879); (75076, 77711); (77811, 77823); (78895, 82943); (83527, 92159);
    (92729, 92735); (92767, 92767); (92778, 92781); (92863, 92863); (92874, 92879); (92910, 92911);
    (92918, 92927); (92998, 93007); (93018, 93018); (93026, 93026); (93048, 93052); (93072, 93759);
    (93851, 93951); (94027, 94030); (94088, 94094); (94112, 94175); (94181, 94191); (94194, 94207);
    (100344, 100351); (101590, 101631); (101641, 110575); (110580, 110580); (110588, 110588); (110591, 110591);
    (110883, 110927); (110931, 110947); (110952, 110959); (111356, 113663); (113771, 113775); (113789, 113791);
    (113801, 113807); (113818, 113819); (113824, 118527); (118574, 118575); (118599, 118607); (118724, 118783);
    (119030, 119039); (119079, 119080); (119155, 119162); (119275, 119295); (119366, 119519); (119540, 119551);
    (119639, 119647); (119673, 119807); (119893, 119893); (119965, 119965); (119968, 119969); (119971, 119972);
    (119975, 119976); (119981, 119981); (119994, 119994); (119996, 119996); (120004, 120004); (120070, 120070);
    (120075, 120076); (120085, 120085); (120093, 120093); (120122, 120122); (120127, 120127); (120133, 120133);
    (120135, 120137); (120145, 120145); (120486, 120487); (120780, 120781); (121484, 121498); (121504, 121504);
    (121520, 122623); (122655, 122879); (122887, 122887); (122905, 122906); (122914, 122914); (122917, 122917);
    (122923, 123135); (123181, 123183); (123198, 123199); (123210, 123213); (123216, 123535); (123567, 123583);
    (123642, 123646); (123648, 124895); (124903, 124903); (124908, 124908); (124911, 124911); (124927, 124927);
    (125125, 125126); (125143, 125183); (125260, 125263); (125274, 125277); (125280, 126064); (126133, 126208);
    (126270, 126463); (126468, 126468); (126496, 126496); (126499, 126499); (126501, 126502); (126504, 126504);
    (126515, 126515); (126520, 126520); (126522, 126522); (126524, 126529); (126531, 126534); (126536, 126536);
    (126538, 126538); (126540, 126540); (126544, 126544); (126547, 126547); (126549, 126550); (126552, 126552);
    (126554, 126554); (126556, 126556); (126558, 126558); (126560, 126560); (126563, 126563); (126565, 126566);
    (126571, 126571); (126579, 126579); (126584, 126584); (126589, 126589); (126591, 126591); (126602, 126602);
    (126620, 126624); (126628, 126628); (126634, 126634); (126652, 126703); (126706, 126975); (127020, 127023);
    (127124, 127135); (127151, 127152); (127168, 127168); (127184, 127184); (127222, 127231); (127406, 127461);
    (127491, 127503); (127548, 127551); (127561, 127567); (127570, 127583); (127590, 127743); (128728, 128732);
    (128749, 128751); (128765, 128767); (128884, 128895); (128985, 128991); (129004, 129007); (129009, 129023);
    (129036, 129039); (129096, 129103); (129114, 129119); (129160, 129167); (129198, 129199); (129202, 129279);
    (129620, 129631); (129646, 129647); (129653, 129655); (129661, 129663); (129671, 129679); (129709, 129711);
    (129723, 129727); (129734, 129743); (129754, 129759); (129768, 129775); (129783, 129791); (129939, 129939);
    (129995, 130031); (130042, 131071); (173792, 173823); (177977, 177983); (178206, 178207); (183970, 183983);
    (191457, 194559); (195102, 196607); (201547, 917759); (918000, 1114111) ].

Definition is_printable (n : Z) : bool :=
  negb (existsb (fun r => (fst r <=? n) && (n <=? snd r)) nonprintable).

(** [n] on [k] lower-case hexadecimal digits. *)
Fixpoint hex_fixed (k : nat) (n : Z) : string :=
  match k with
  | O => EmptyString
  | S k' => hex_fixed k' (n / 16) +:+ String (MD5.hex_digit (n mod 16)) EmptyString
  end.

(** How [repr] writes one code point, given by its bytes. *)
Definition escape_point (q : ascii) (cp : string) : string :=
  match cp with
  | String c EmptyString => escape_char q c
  | _ =>
      let n := PyStr.code_point_value cp in
      if (n <? 0) || is_printable n then cp
      else if n <? 256 then "\x" +:+ hex_fixed 2 n
      else if n <? 65536 then "\u" +:+ hex_fixed 4 n
      else "\U" +:+ hex_fixed 8 n
  end.

Definition escape (q : ascii) (s : string) : string :=
  fold_right (fun cp acc => escape_point q cp +:+ acc) EmptyString
             (PyStr.code_points s).

(** [repr(s)] for a string: single quotes, unless the string holds a
    single quote and no double quote; a code point that is not
    printable is written as an escape. *)
Definition repr_str (s : string) : string :=
  let q :=
    if PyStr.contains "'" s && negb (PyStr.contains PyStr.dquote s)
    then ascii_of_nat 34 else ascii_of_nat 39 in
  String q (escape q s +:+ String q EmptyString).

(** [repr(v)]. *)
Fixpoint repr (v : value) : string :=
  match v with
  | VNone => "None"
  | VBool true => "True"
  | VBool false => "False"
  | VInt n => PyStr.of_Z n
  | VStr s => repr_str s
  | VList l => "[" +:+ PyStr.join ", " (map repr l) +:+ "]"
  | VDict d =>
      "{" +:+ PyStr.join ", "
                (map (fun kv => repr_str (fst kv) +:+ ": " +:+ repr (snd kv)) d)
          +:+ "}"
  | VTuple l =>
      match l with
      | [x] => "(" +:+ repr x +:+ ",)"
      | _ => "(" +:+ PyStr.join ", " (map repr l) +:+ ")"
      end
  end.

(** [str(v)], which is what an f-string inserts. *)
Definition str (v : value) : string :=
  match v with
  | VStr s => s
  | _ => repr v
  end.

(** [s == v] for a string [s]. *)
Definition eq_str (s : string) (v : value) : bool :=
  match v with
  | VStr s' => PyStr.eqb s s'
  | _ => false
  end.

(** What [json.load] reads back from what [json.dump] wrote: a tuple
    comes back as a list, everything else as itself. *)
Fixpoint json_image (v : value) : value :=
  match v with
  | VList l | VTuple l => VList (map json_image l)
  | VDict d => VDict (map (fun kv => (fst kv, json_image (snd kv))) d)
  | _ => v
  end.

End PyVal.

(* ===================================================================== *)
(** ** Exceptions, the world and the monad of the script *)
(* ===================================================================== *)

Inductive exn :=
| DecodeError                        (* json.JSONDecodeError, UnicodeDecodeError *)
| AttributeError
| TypeError
| IndexError
| KeyError
| OverflowError
| ValueError                         (* open: a NUL byte in the file name *)
| IsADirectoryError                  (* open: the path is a directory *)
| MissingSchema                      (* requests: the URL is not one *)
| HTTPError (status : Z)             (* raise_for_status *)
| ExternalError (msg : string).      (* raised by a service or the network *)

Inductive result (A : Type) :=
| Ok (a : A)
| Raise (e : exn).
Arguments Ok {A} a.
Arguments Raise {A} e.

(** What is at a path: a file, as [json.load] sees it (a document, or
    bytes it rejects), or a directory. *)
Inductive file_data :=
| Json (v : value)
| Malformed (raw : string)
| Directory.

Record chat_request := ChatRequest {
  chat_model : string;
  chat_messages : list (string * string);      (* role, content *)
  chat_max_tokens : Z;
  chat_temperature : Q
}.

Record image_request := ImageRequest {
  image_model : string;
  image_prompt : string;
  image_size : string;
  image_quality : string;
  image_n : Z
}.

(** The calls made to the outside, in the order they were made. *)
Inductive event :=
| ChatCall (req : chat_request)
| ImageCall (req : image_request)
| HttpGet (url : string)
| ClockRead.

(** What exists at each path, files and directories alike, the open
    descriptors, and the calls so far.  Paths are names, as the script
    spells them.  The directories of [setup_directories] exist, so a
    cache file can always be created; the image file, whose name comes
    from the flow document, is opened with [open_write], which can
    fail. *)
Record world := World {
  files : gmap string file_data;
  fds : gset Z;
  trace : list event
}.

Record http_response := HttpResponse {
  status_code : Z;
  content : file_data
}.

(** [client.chat.completions.create] and [client.images.generate]: the
    answer is the [message.content] of each choice, respectively the
    [url] of each datum. *)
Record openai_client := Client {
  chat_completions_create : list event -> chat_request -> result (list (option string));
  images_generate : list event -> image_request -> result (list (option string))
}.

(** [requests.get] and [datetime.now()], the latter in the two formats
    the script prints it in. *)
Record platform := Platform {
  requests_get : list event -> string -> result http_response;
  now_isoformat : list event -> string;
  now_strftime : list event -> string
}.

Definition M (A : Type) : Type := world -> result A * world.

#[global] Instance M_ret : MRet M := fun A a w => (Ok a, w).

#[global] Instance M_bind : MBind M := fun A B f m w =>
  match m w with
  | (Ok a, w') => f a w'
  | (Raise e, w') => (Raise e, w')
  end.

Definition raise {A : Type} (e : exn) : M A := fun w => (Raise e, w).

(** [try: m except Exception as e: h e]. *)
Definition try_except {A : Type} (m : M A) (h : exn -> M A) : M A := fun w =>
  match m w with
  | (Ok a, w') => (Ok a, w')
  | (Raise e, w') => h e w'
  end.

Definition lift {A : Type} (r : result A) : M A := fun w => (r, w).

Definition get_world : M world := fun w => (Ok w, w).

Definition log (e : event) : M unit := fun w =>
  (Ok tt, World (files w) (fds w) (trace w ++ [e])).

Definition write_file (path : string) (data : file_data) : M unit := fun w =>
  (Ok tt, World (<[path := data]> (files w)) (fds w) (trace w)).

Definition is_directory (w : world) (path : string) : bool :=
  match files w !! path with
  | Some Directory => true
  | _ => false
  end.

(** Whether [open(path, 'wb')] succeeds: no NUL byte in the name, and no
    directory at the path. *)
Definition writable (w : world) (path : string) : bool :=
  negb (PyStr.has_nul path) && negb (is_directory w path).

(** [with open(path, 'wb') as f: f.write(data)] for a path that comes
    from the input. *)
Definition open_write (path : string) (data : file_data) : M unit := fun w =>
  if PyStr.has_nul path then (Raise ValueError, w)
  else if is_directory w path then (Raise IsADirectoryError, w)
       else write_file path data w.

(** [datetime.now()], rendered by [fmt]. *)
Definition datetime_now (fmt : list event -> string) : M string := fun w =>
  (Ok (fmt (trace w)), World (files w) (fds w) (trace w ++ [ClockRead])).

(* ===================================================================== *)
(** ** os.path, open and json *)
(* ===================================================================== *)

Module os_path.

(** [os.path.join(a, b)], POSIX. *)
Definition join (a b : string) : string :=
  if String.prefix "/" b then b
  else if negb (PyStr.nonempty a) || String.prefix "/" (String.rev a)
       then a +:+ b
       else a +:+ "/" +:+ b.

(** [os.path.exists(v)]: a path names what the world has there, a file
    or a directory; an integer names an open descriptor. *)
Definition exists_ (v : value) : M bool := fun w =>
  match v with
  | VStr p => (Ok (PyStr.nonempty p && bool_decide (is_Some (files w !! p))), w)
  | VInt n =>
      if (n <? - 2 ^ 31) || (2 ^ 31 <=? n) then (Raise OverflowError, w)
      else (Ok (bool_decide (n ∈ fds w)), w)
  | VBool b => (Ok (bool_decide ((if b then 1 else 0) ∈ fds w)), w)
  | _ => (Raise TypeError, w)
  end.

End os_path.

(** [with open(path, 'r') as f: json.load(f)]. *)
Definition json_load (path : string) : M value := fun w =>
  match files w !! path with
  | Some (Json v) => (Ok v, w)
  | Some (Malformed _) => (Raise DecodeError, w)
  | Some Directory => (Raise IsADirectoryError, w)
  | None => (Raise (ExternalError "FileNotFoundError"), w)
  end.

(** [json.dump(v, f)] on the file opened at [path]. *)
Definition json_dump (path : string) (v : value) : M unit :=
  write_file path (Json (PyVal.json_image v)).

(** [v.get(k)]: only a dict has the method. *)
Definition method_get (v : value) (k : string) : M value :=
  match v with
  | VDict d => mret (default VNone (PyVal.dict_lookup k d))
  | _ => raise AttributeError
  end.

(** [v[i]]. *)
Definition getitem (v : value) (i : nat) : M value :=
  match v with
  | VTuple l | VList l =>
      match nth_error l i with
      | Some x => mret x
      | None => raise IndexError
      end
  | VStr s =>
      match nth_error (PyStr.code_points s) i with
      | Some c => mret (VStr c)
      | None => raise IndexError
      end
  | VDict _ => raise KeyError
  | _ => raise TypeError
  end.

(* ===================================================================== *)
(** ** The cache store *)
(* ===================================================================== *)

Definition CACHE_DIR : string := "cache".

Definition get_cache_key (prefix data_string : string) : string :=
  let cache_string := prefix +:+ "_" +:+ data_string in
  MD5.hexdigest cache_string.

Definition cache_path (cache_key : string) : string :=
  os_path.join CACHE_DIR (cache_key +:+ ".json").

Definition get_cached_item (cache_key item_type : string) : M value :=
  let cache_file := cache_path cache_key in
  present ← os_path.exists_ (VStr cache_file);
  if present : bool then
    cache_data ← json_load cache_file;
    if PyStr.eqb item_type "description" then
      method_get cache_data "description"
    else if PyStr.eqb item_type "summary" then
      method_get cache_data "summary"
    else if PyStr.eqb item_type "image" then
      filename ← method_get cache_data "filename";
      if PyVal.truthy filename then
        on_disk ← os_path.exists_ filename;
        if on_disk : bool then
          url ← method_get cache_data "url";
          mret (VTuple [filename; url])
        else mret VNone
      else mret VNone
    else mret VNone
  else mret VNone.

Section CacheWrite.

Variable pf : platform.

Definition cache_item (cache_key : string) (item : value) (item_type : string)
  : M unit :=
  let cache_file := cache_path cache_key in
  (* open(cache_file, 'w') leaves an empty file *)
  write_file cache_file (Malformed "") ;;
  if PyStr.eqb item_type "description" then
    json_dump cache_file (VDict [("description", item)])
  else if PyStr.eqb item_type "summary" then
    json_dump cache_file (VDict [("summary", item)])
  else if PyStr.eqb item_type "image" then
    filename ← getitem item 0;
    url ← getitem item 1;
    created ← datetime_now (now_isoformat pf);
    json_dump cache_file
      (VDict [("filename", filename); ("url", url); ("created", VStr created)])
  else mret tt.

End CacheWrite.

(* ===================================================================== *)
(** ** The flow document and the interactions extracted from it *)
(* ===================================================================== *)

(** A field that the document may leave out is an [option]; a field that
    is present holds a string, and a context that is present is an
    object.  Documents with a null or a value of another type in one of
    these places are not represented. *)
Record click_context := ClickContext {
  click_text : option string;
  click_elementType : option string
}.

Record page_context := PageContext {
  page_title : option string;
  page_url : option string
}.

Record step := Step {
  step_type : option string;
  step_id : option string;
  step_title : option string;
  step_subtitle : option string;
  step_clickContext : option click_context;
  step_pageContext : option page_context
}.

Record flow_data := FlowData {
  flow_name : option string;
  flow_steps : list step
}.

(** The dict appended to [user_interactions]: a CHAPTER entry has a
    ['description'] and no ['element'], an IMAGE or VIDEO entry the
    converse. *)
Record interaction := Interaction {
  step_number : nat;
  action : value;
  itype : string;
  description : option string;
  element : option string;
  page : string;
  url : string
}.

(** [step.get('clickContext', {})] and [step.get('pageContext', {})]. *)
Definition click_of (st : step) : click_context :=
  default (ClickContext None None) (step_clickContext st).

Definition page_of (st : step) : page_context :=
  default (PageContext None None) (step_pageContext st).

(* ===================================================================== *)
(** ** The description generator *)
(* ===================================================================== *)

Definition clicked_element_of (st : step) : string :=
  default "N/A" (click_text (click_of st)).

Definition element_type_of (st : step) : string :=
  default "unknown" (click_elementType (click_of st)).

Definition describe_cache_key (st : step) : string :=
  get_cache_key "interaction"
    (default "" (step_id st) +:+ "_" +:+ clicked_element_of st).

Definition describe_prompt (st : step) : string :=
  let q := PyStr.dquote in
  PyStr.join PyStr.nl
    [ "Given this user interaction data from a web flow:";
      "- Page: " +:+ default "" (page_title (page_of st));
      "- URL: " +:+ default "" (page_url (page_of st));
      "- Clicked element type: " +:+ element_type_of st;
      "- Clicked element text: " +:+ clicked_element_of st;
      "";
      "Create a concise, human-readable description of what the user did. ";
      "Format it as: " +:+ q +:+ "Clicked on [action]" +:+ q +:+ " or "
        +:+ q +:+ "Interacted with [element]" +:+ q;
      "Keep it under 20 words and make it natural.";
      "";
      "Examples:";
      "- " +:+ q +:+ "Clicked on search bar" +:+ q;
      "- " +:+ q +:+ "Selected scooter product" +:+ q;
      "- " +:+ q +:+ "Chose Blue color option" +:+ q;
      "- " +:+ q +:+ "Added item to cart" +:+ q;
      "- " +:+ q +:+ "Clicked on cart icon" +:+ q;
      "";
      "Just return the description, nothing else:" ].

Definition describe_request (st : step) : chat_request :=
  ChatRequest "gpt-4o-mini"
    [ ("system", "You are a helpful assistant that describes user interactions in simple, clear language.");
      ("user", describe_prompt st) ]
    50 (3 # 10)%Q.

(** The templated description of the [except] branch. *)
Definition describe_fallback (st : step) : string :=
  let element_type := element_type_of st in
  let clicked_element := clicked_element_of st in
  if PyStr.eqb element_type "button" then "Clicked on button: " +:+ clicked_element
  else if PyStr.eqb element_type "image" then "Clicked on image: " +:+ clicked_element
  else if PyStr.eqb element_type "link" then "Clicked on link: " +:+ clicked_element
  else "Interacted with: " +:+ clicked_element.

(** [client.chat.completions.create(...)], then
    [response.choices[0].message.content.strip()]. *)
Definition chat_content (client : openai_client) (req : chat_request) : M string :=
  w ← get_world;
  log (ChatCall req) ;;
  choices ← lift (chat_completions_create client (trace w) req);
  match choices with
  | [] => raise IndexError
  | None :: _ => raise AttributeError
  | Some text :: _ => mret (PyStr.strip text)
  end.

Section Describe.

Variable pf : platform.

Definition describe_interaction (client : openai_client) (st : step) : M value :=
  let cache_key := describe_cache_key st in
  cached ← get_cached_item cache_key "description";
  if PyVal.truthy cached then mret cached
  else
    try_except
      (description ← chat_content client (describe_request st);
       cache_item pf cache_key (VStr description) "description" ;;
       mret (VStr description))
      (fun _ => mret (VStr (describe_fallback st))).

(* =================================================================== *)
(** ** The interaction extractor *)
(* =================================================================== *)

(** The body of the loop over [flow_data.get('steps', [])], with
    [user_interactions] as built so far. *)
Fixpoint extract_loop (client : openai_client) (steps : list step)
    (user_interactions : list interaction) : M (list interaction) :=
  match steps with
  | [] => mret user_interactions
  | st :: rest =>
      if bool_decide (step_type st = Some "CHAPTER") then
        let title := default "" (step_title st) in
        if PyStr.nonempty title then
          extract_loop client rest
            (user_interactions ++
               [ {| step_number := length user_interactions + 1;
                    action := VStr ("Started: " +:+ title);
                    itype := "CHAPTER";
                    description := Some (default "" (step_subtitle st));
                    element := None;
                    page := "";
                    url := "" |} ])
        else extract_loop client rest user_interactions
      else if bool_decide (step_type st = Some "IMAGE")
              || bool_decide (step_type st = Some "VIDEO") then
        match step_clickContext st with
        | Some _ =>
            action_description ← describe_interaction client st;
            extract_loop client rest
              (user_interactions ++
                 [ {| step_number := length user_interactions + 1;
                      action := action_description;
                      itype := default "" (step_type st);
                      description := None;
                      element := Some (default "" (click_text (click_of st)));
                      page := default "" (page_title (page_of st));
                      url := default "" (page_url (page_of st)) |} ])
        | None => extract_loop client rest user_interactions
        end
      else extract_loop client rest user_interactions
  end.

Definition extract_user_interactions (client : openai_client) (fd : flow_data)
  : M (list interaction) :=
  extract_loop client (flow_steps fd) [].

End Describe.

(* ===================================================================== *)
(** ** The narrative generator *)
(* ===================================================================== *)

Definition summary_cache_key (flow_name : string) (num_interactions : nat) : string :=
  get_cache_key "summary" (flow_name +:+ "_" +:+ PyStr.of_nat num_interactions).

(** The subtitle of the first CHAPTER step that has one. *)
Fixpoint flow_description_of (steps : list step) : string :=
  match steps with
  | [] => ""
  | st :: rest =>
      if bool_decide (step_type st = Some "CHAPTER")
         && PyStr.nonempty (default "" (step_subtitle st))
      then default "" (step_subtitle st)
      else flow_description_of rest
  end.

(** [s in v] for a string [s]. *)
Definition str_in (s : string) (v : value) : result bool :=
  match v with
  | VStr t => Ok (PyStr.contains s t)
  | VList l | VTuple l => Ok (existsb (PyVal.eq_str s) l)
  | VDict d => Ok (existsb (fun kv => PyStr.eqb s (fst kv)) d)
  | _ => Raise TypeError
  end.

(** One line of [actions_list]. *)
Definition action_line (i : interaction) : result string :=
  let action_text := action i in
  let plain := Ok ("- " +:+ PyVal.str action_text) in
  if PyStr.nonempty (page i) then
    match str_in (page i) action_text with
    | Ok false =>
        Ok ("- " +:+ PyVal.str action_text +:+ " (on " +:+ page i +:+ ")")
    | Ok true => plain
    | Raise e => Raise e
    end
  else plain.

Fixpoint actions_list_of (user_interactions : list interaction)
  : result (list string) :=
  match user_interactions with
  | [] => Ok []
  | i :: rest =>
      match action_line i with
      | Ok line =>
          match actions_list_of rest with
          | Ok lines => Ok (line :: lines)
          | Raise e => Raise e
          end
      | Raise e => Raise e
      end
  end.

Definition summary_prompt (flow_name flow_description actions_text : string)
  : string :=
  PyStr.join PyStr.nl
    [ "Analyze this user flow and create a clear, readable summary.";
      "";
      "Flow: " +:+ flow_name;
      "Description: " +:+ flow_description;
      "";
      "User Actions:";
      actions_text;
      "";
      "Write a concise 2-3 paragraph summary that:";
      "1. Describes what the user was trying to accomplish";
      "2. Summarizes the key steps they took";
      "3. Notes the final outcome";
      "";
      "Use natural, conversational language:" ].

Definition summary_request (prompt : string) : chat_request :=
  ChatRequest "gpt-4o-mini"
    [ ("system", "Create clear, engaging summaries of user journeys.");
      ("user", prompt) ]
    300 (7 # 10)%Q.

Definition summary_fallback (flow_name : string) (n : nat) : string :=
  "User completed flow: " +:+ flow_name +:+ " with " +:+ PyStr.of_nat n
    +:+ " actions.".

Section Narrative.

Variable pf : platform.

Definition generate_flow_summary (client : openai_client)
    (user_interactions : list interaction) (fd : flow_data) : M value :=
  let flow_name := default "" (flow_name fd) in
  let num_interactions := length user_interactions in
  let cache_key := summary_cache_key flow_name num_interactions in
  cached ← get_cached_item cache_key "summary";
  if PyVal.truthy cached then mret cached
  else
    let flow_description := flow_description_of (flow_steps fd) in
    actions_list ← lift (actions_list_of user_interactions);
    let actions_text := PyStr.join PyStr.nl actions_list in
    let prompt := summary_prompt flow_name flow_description actions_text in
    try_except
      (summary ← chat_content client (summary_request prompt);
       cache_item pf cache_key (VStr summary) "summary" ;;
       mret (VStr summary))
      (fun _ =>
         mret (VStr (summary_fallback flow_name (length user_interactions)))).

End Narrative.

(* ===================================================================== *)
(** ** The image synthesizer *)
(* ===================================================================== *)

Definition key_themes_of (summary_lower : string) : list string :=
  (if PyStr.contains "scooter" summary_lower then ["modern scooter"] else [])
  ++ (if PyStr.contains "shopping" summary_lower
         || PyStr.contains "cart" summary_lower
      then ["online shopping"] else [])
  ++ (if PyStr.contains "target" summary_lower
      then ["retail shopping experience"] else []).

Definition generate_image_prompt (flow_summary : string) (fd : flow_data)
    (user_interactions : list interaction) : string :=
  let flow_name := default "User Flow" (flow_name fd) in
  let summary_lower := PyStr.lower flow_summary in
  let key_themes := key_themes_of summary_lower in
  let themes_text :=
    match key_themes with
    | [] => "user journey"
    | _ => PyStr.join ", " key_themes
    end in
  PyStr.join PyStr.nl
    [ "Create a vibrant, professional social media image for this user flow: "
        +:+ PyStr.dquote +:+ flow_name +:+ PyStr.dquote;
      "";
      "The image should:";
      "- Be visually engaging and suitable for social media (Instagram, Twitter, LinkedIn)";
      "- Represent the theme of: " +:+ themes_text;
      "- Use modern, clean design with bright, appealing colors";
      "- Have a professional but friendly aesthetic";
      "- Include visual elements that tell a story about the user journey";
      "- Be optimized for 1024x1024 square format";
      "- Look shareable and engaging";
      "";
      "Style: Modern digital illustration, clean composition, professional social media graphic design, colorful and eye-catching" ].

Definition image_cache_key (fd : flow_data) (flow_summary : string) : string :=
  get_cache_key "image"
    (default "" (flow_name fd) +:+ "_"
       +:+ PyStr.take 10 (MD5.hexdigest flow_summary)).

Definition image_request_of (prompt : string) : image_request :=
  ImageRequest "dall-e-3" prompt "1024x1024" "standard" 1.

Definition flow_name_safe_of (fd : flow_data) : string :=
  PyStr.take 30
    (PyStr.replace_char "/" "_"
       (PyStr.replace_char " " "_" (default "flow" (flow_name fd)))).

Section Image.

Variable pf : platform.

(** The [try] block of [generate_social_media_image]. *)
Definition synthesize (client : openai_client) (cache_key image_prompt : string)
    (fd : flow_data) : M value :=
  w ← get_world;
  log (ImageCall (image_request_of image_prompt)) ;;
  data ← lift (images_generate client (trace w) (image_request_of image_prompt));
  image_url ← match data with
              | [] => raise IndexError
              | u :: _ => mret u
              end;
  match image_url with
  | None => raise MissingSchema
  | Some image_url =>
      w' ← get_world;
      log (HttpGet image_url) ;;
      image_response ← lift (requests_get pf (trace w') image_url);
      (if (400 <=? status_code image_response)
          && (status_code image_response <? 600)
       then raise (HTTPError (status_code image_response))
       else mret tt) ;;
      let flow_name_safe := flow_name_safe_of fd in
      timestamp ← datetime_now (now_strftime pf);
      let image_filename :=
        "social_media_image_" +:+ flow_name_safe +:+ "_" +:+ timestamp
          +:+ ".png" in
      open_write image_filename (content image_response) ;;
      let result := VTuple [VStr image_filename; VStr image_url] in
      cache_item pf cache_key result "image" ;;
      mret result
  end.

Definition generate_social_media_image (client : openai_client)
    (flow_summary : value) (fd : flow_data)
    (user_interactions : list interaction) : M value :=
  match flow_summary with
  | VStr summary =>
      let cache_key := image_cache_key fd summary in
      cached ← get_cached_item cache_key "image";
      if PyVal.truthy cached then mret cached
      else
        let image_prompt := generate_image_prompt summary fd user_interactions in
        try_except
          (synthesize client cache_key image_prompt fd)
          (fun _ => mret (VTuple [VNone; VNone]))
  | _ => raise AttributeError        (* flow_summary.encode() *)
  end.

End Image.

(* ===================================================================== *)
(** ** Vocabulary of the properties *)
(* ===================================================================== *)

(** The field a cache read of [kind] looks at first. *)
Definition field_of (kind : string) : option string :=
  if PyStr.eqb kind "description" then Some "description"
  else if PyStr.eqb kind "summary" then Some "summary"
  else if PyStr.eqb kind "image" then Some "filename"
  else None.

(** The world after one more chat completion was requested. *)
Definition called (req : chat_request) (w : world) : world :=
  World (files w) (fds w) (trace w ++ [ChatCall req]).

(** The world after the text [s] was cached under [key] as [kind]. *)
Definition stored (key kind s : string) (w : world) : world :=
  World (<[cache_path key := Json (VDict [(kind, VStr s)])]> (files w))
        (fds w) (trace w).

(** The key and the request of [generate_flow_summary], as functions of
    its arguments. *)
Definition summary_key_of (uis : list interaction) (fd : flow_data) : string :=
  summary_cache_key (default "" (flow_name fd)) (length uis).

Definition summary_request_for (fd : flow_data) (lines : list string)
  : chat_request :=
  summary_request
    (summary_prompt (default "" (flow_name fd))
       (flow_description_of (flow_steps fd)) (PyStr.join PyStr.nl lines)).

(** The file name of [generate_social_media_image] when its two calls
    were made from the trace [tr]. *)
Definition image_filename_at (pf : platform) (fd : flow_data) (tr : list event)
    (prompt url : string) : string :=
  "social_media_image_" +:+ flow_name_safe_of fd +:+ "_"
    +:+ now_strftime pf ((tr ++ [ImageCall (image_request_of prompt)]) ++ [HttpGet url])
    +:+ ".png".

(** A step qualifies when it is a CHAPTER with a non-empty title, or an
    IMAGE or a VIDEO with a click context. *)
Definition qualifying (st : step) : bool :=
  (bool_decide (step_type st = Some "CHAPTER")
   && PyStr.nonempty (default "" (step_title st)))
  || ((bool_decide (step_type st = Some "IMAGE")
       || bool_decide (step_type st = Some "VIDEO"))
      && bool_decide (is_Some (step_clickContext st))).

(** The interaction [i] was built from the step [st]. *)
Definition emitted_from (st : step) (i : interaction) : Prop :=
  if bool_decide (step_type st = Some "CHAPTER") then
    itype i = "CHAPTER"
    /\ action i = VStr ("Started: " +:+ default "" (step_title st))
    /\ description i = Some (default "" (step_subtitle st))
    /\ element i = None /\ page i = "" /\ url i = ""
  else
    Some (itype i) = step_type st
    /\ description i = None
    /\ element i = Some (default "" (click_text (click_of st)))
    /\ page i = default "" (page_title (page_of st))
    /\ url i = default "" (page_url (page_of st)).

(** Every cache file holds a JSON object. *)
Definition cache_readable (w : world) : Prop :=
  forall key data,
    files w !! cache_path key = Some data -> exists d, data = Json (VDict d).

(* ===================================================================== *)
(** ** Sample inputs *)
(* ===================================================================== *)

(** A process with its three standard descriptors and no file. *)
Definition w_fresh : world := World ∅ {[ 0; 1; 2 ]} [].

(** The cache file of the fingerprint of ("interaction", "s1_Submit")
    holds a lone brace. *)
Definition w_malformed : world :=
  World {[ "cache/817428248cf9278610224e3ab75dcfc0.json" := Malformed "{" ]}
        {[ 0; 1; 2 ]} [].

(** An image file is on disk. *)
Definition w_with_image : world :=
  World {[ "shot.png" := Malformed "PNG" ]} {[ 0; 1; 2 ]} [].

(** The cache entry of [st_submit] holds an empty description. *)
Definition w_blank_cached : world :=
  World {[ "cache/817428248cf9278610224e3ab75dcfc0.json"
             := Json (VDict [("description", VStr "")]) ]}
        {[ 0; 1; 2 ]} [].

(** The image entry of ("Checkout", "The user paid for the cart.")
    names a file that is no longer there. *)
Definition w_stale_image : world :=
  World {[ "cache/94fff15a0d568ec0b00ca08f6cf69710.json"
             := Json (VDict
                        [("filename", VStr "social_media_image_Checkout_20240101_090000.png");
                         ("url", VStr "https://img.example/0");
                         ("created", VStr "2024-01-01T09:00:00")]) ]}
        {[ 0; 1; 2 ]} [].

(** The same entry names the cache directory itself, which exists. *)
Definition w_entry_names_directory : world :=
  World {[ "cache" := Directory;
           "cache/94fff15a0d568ec0b00ca08f6cf69710.json"
             := Json (VDict [("filename", VStr "cache");
                             ("url", VStr "https://img.example/0")]) ]}
        {[ 0; 1; 2 ]} [].

(** A flow whose name holds a NUL byte. *)
Definition fd_nul_name : flow_data :=
  FlowData (Some (String "a" (String (ascii_of_nat 0) "b"))) [].

(** Downloads succeed; the clock stands still. *)
Definition pf_sample : platform :=
  Platform (fun _ _ => Ok (HttpResponse 200 (Malformed "PNG")))
           (fun _ => "2024-05-01T10:00:00")
           (fun _ => "20240501_100000").

(** A service that is down. *)
Definition client_down : openai_client :=
  Client (fun _ _ => Raise (ExternalError "Connection error."))
         (fun _ _ => Raise (ExternalError "Connection error.")).

(** A service that always gives the same answer. *)
Definition client_steady : openai_client :=
  Client (fun _ _ => Ok [Some " Clicked on Submit "])
         (fun _ _ => Ok [Some "https://img.example/1"]).

(** A service whose first answer is blank. *)
Definition client_blank_first : openai_client :=
  Client (fun tr _ =>
            match tr with
            | [] => Ok [Some "  "]
            | _ => Ok [Some " Clicked on Submit "]
            end)
         (fun _ _ => Raise (ExternalError "Connection error.")).

(** A service whose first answer is empty. *)
Definition client_empty_first : openai_client :=
  Client (fun tr _ =>
            match tr with
            | [] => Ok [Some ""]
            | _ => Ok [Some "The user paid for the cart."]
            end)
         (fun _ _ => Raise (ExternalError "Connection error.")).

(** A click on the Submit button of the cart page, and the same click
    recorded on another page. *)
Definition st_submit : step :=
  Step (Some "IMAGE") (Some "s1") None None
       (Some (ClickContext (Some "Submit") (Some "button")))
       (Some (PageContext (Some "Cart") (Some "https://shop.example/cart"))).

Definition st_submit_elsewhere : step :=
  Step (Some "VIDEO") (Some "s1") None None
       (Some (ClickContext (Some "Submit") (Some "link")))
       (Some (PageContext (Some "Checkout") (Some "https://shop.example/pay"))).

(** A flow named Checkout: one chapter, then the Submit click. *)
Definition fd_checkout : flow_data :=
  FlowData (Some "Checkout")
    [ Step (Some "CHAPTER") (Some "c1") (Some "Pay") (Some "Paying for the cart")
           None None;
      st_submit ].

(** Another flow of the same name, with other steps. *)
Definition fd_checkout_other : flow_data :=
  FlowData (Some "Checkout")
    [ Step (Some "CHAPTER") (Some "c9") (Some "Browse") (Some "Looking for a scooter")
           None None ].

(** A chapter titled A, a chapter without a title, an image with a
    click. *)
Definition fd_three_steps : flow_data :=
  FlowData (Some "Demo")
    [ Step (Some "CHAPTER") (Some "c1") (Some "A") None None None;
      Step (Some "CHAPTER") (Some "c2") (Some "") None None None;
      st_submit ].

(** Two interactions with nothing in common but being one each. *)
Definition ui_submit : interaction :=
  Interaction 1 (VStr "Clicked on Submit") "IMAGE" None (Some "Submit")
              "Cart" "https://shop.example/cart".

Definition ui_search : interaction :=
  Interaction 1 (VStr "Typed scooter in the search bar") "VIDEO" None
              (Some "Search") "Home" "https://shop.example/".

(* ===================================================================== *)
(** ** Vocabulary and sample inputs of the further properties *)
(* ===================================================================== *)

(** A lower-case hexadecimal digit. *)
Definition hex_lower (c : ascii) : bool :=
  let n := PyStr.byte_of c in
  ((48 <=? n) && (n <=? 57)) || ((97 <=? n) && (n <=? 102)).

(** Every character of [s] passes [P]. *)
Fixpoint all_chars (P : ascii -> bool) (s : string) : bool :=
  match s with
  | EmptyString => true
  | String c s' => P c && all_chars P s'
  end.

(** The number of code points of [s]: its bytes that start one. *)
Fixpoint code_point_count (s : string) : nat :=
  match s with
  | EmptyString => O
  | String c s' =>
      if PyStr.is_continuation c then code_point_count s'
      else S (code_point_count s')
  end.

(** The steps for which the extraction asks for a description. *)
Definition needs_description (st : step) : bool :=
  (bool_decide (step_type st = Some "IMAGE")
   || bool_decide (step_type st = Some "VIDEO"))
  && bool_decide (is_Some (step_clickContext st)).

(** The two kinds whose entry is a text. *)
Definition kind_is_text (kind : string) : Prop :=
  kind = "description" \/ kind = "summary".

(** A service that answers with one choice and no content. *)
Definition client_silent : openai_client :=
  Client (fun _ _ => Ok [None]) (fun _ _ => Ok []).

(** Two different clicks: step "save_as" on the text "draft", and step
    "save" on the text "as_draft". *)
Definition st_save_as : step :=
  Step (Some "IMAGE") (Some "save_as") None None
       (Some (ClickContext (Some "draft") (Some "button"))) None.

Definition st_as_draft : step :=
  Step (Some "IMAGE") (Some "save") None None
       (Some (ClickContext (Some "as_draft") (Some "link"))) None.

(** The cache entry of [st_submit] holds a description. *)
Definition w_submit_cached : world :=
  World {[ "cache/817428248cf9278610224e3ab75dcfc0.json"
             := Json (VDict [("description", VStr "Pressed Submit")]) ]}
        {[ 0; 1; 2 ]} [].

(** The values on which [in] raises: neither a string nor a container. *)
Definition no_membership (v : value) : bool :=
  match v with
  | VNone | VBool _ | VInt _ => true
  | _ => false
  end.

(** The line of the prompt for an action text [a] on the page [p]. *)
Definition action_line_text (a p : string) : string :=
  if PyStr.nonempty p && negb (PyStr.contains p a)
  then "- " +:+ a +:+ " (on " +:+ p +:+ ")"
  else "- " +:+ a.

(** The action of [i] as a string, when it is one. *)
Definition action_text_of (i : interaction) : option string :=
  match action i with
  | VStr s => Some s
  | _ => None
  end.

(** The cache entry of [st_submit] holds a number as its description. *)
Definition w_number_cached : world :=
  World {[ "cache/817428248cf9278610224e3ab75dcfc0.json"
             := Json (VDict [("description", VInt 7)]) ]}
        {[ 0; 1; 2 ]} [].

(** Downloads are answered with status 404. *)
Definition pf_not_found : platform :=
  Platform (fun _ _ => Ok (HttpResponse 404 (Malformed "Not Found")))
           (fun _ => "2024-05-01T10:00:00")
           (fun _ => "20240501_100000").

(** The summary entry of ("Checkout", 0) holds a list. *)
Definition w_summary_list : world :=
  World {[ "cache/afba760dd33fce645ef08cf89b186984.json"
             := Json (VDict [("summary", VList [VStr "The user paid."])]) ]}
        {[ 0; 1; 2 ]} [].

(** An interaction whose action already names its page. *)
Definition ui_page_in_action : interaction :=
  Interaction 2 (VStr "Opened the Cart page") "IMAGE" None (Some "Cart")
              "Cart" "https://shop.example/cart".

(** A character that [flow_name_safe] lets through. *)
Definition filename_char (c : ascii) : bool :=
  negb (Ascii.eqb c " ") && negb (Ascii.eqb c "/").

(* ===================================================================== *)
(** * Properties *)
(* ===================================================================== *)

(** ** The primitives compute what the Python library does *)

Example md5_empty : MD5.hexdigest "" = "d41d8cd98f00b204e9800998ecf8427e".
Proof. vm_compute. reflexivity. Qed.

Example md5_abc : MD5.hexdigest "abc" = "900150983cd24fb0d6963f7d28e17f72".
Proof. vm_compute. reflexivity. Qed.

Example md5_two_blocks :
  MD5.hexdigest (PyStr.of_bytes (repeat 97 64))
  = "014842d480b571495a4a0363793f7367".
Proof. vm_compute. reflexivity. Qed.

Example interaction_key_s1_Submit :
  get_cache_key "interaction" "s1_Submit" = "817428248cf9278610224e3ab75dcfc0".
Proof. vm_compute. reflexivity. Qed.

Example summary_key_Checkout_0 :
  summary_cache_key "Checkout" 0 = "afba760dd33fce645ef08cf89b186984".
Proof. vm_compute. reflexivity. Qed.

Example strip_spaces : PyStr.strip "  Clicked on cart  " = "Clicked on cart".
Proof. vm_compute. reflexivity. Qed.

Example strip_blank : PyStr.strip "   " = "".
Proof. vm_compute. reflexivity. Qed.

Example join_absolute : os_path.join "cache" "/x.json" = "/x.json".
Proof. reflexivity. Qed.

Example repr_nested :
  PyVal.str (VDict [("a", VList [VInt 1; VStr "x"; VNone; VBool true])])
  = "{'a': [1, 'x', None, True]}".
Proof. vm_compute. reflexivity. Qed.

(** Code points that are not printable are escaped, the others kept:
    the list of "\x85\u2028\ue000\U000e0001" followed by two
    printable letters, of "it's", and of a string with both quotes, a
    tab and a delete. *)
Example repr_escapes :
  PyStr.bytes
    (PyVal.str (VList [ VStr (PyStr.of_bytes [194; 133; 226; 128; 168; 238; 128; 128; 243; 160; 128; 129; 195; 169; 228; 184; 173]);
                        VStr (PyStr.of_bytes [105; 116; 39; 115]);
                        VStr (PyStr.of_bytes [113; 34; 39; 9; 127]) ]))
  = [91; 39; 92; 120; 56; 53; 92; 117; 50; 48; 50; 56; 92; 117; 101; 48; 48; 48; 92; 85; 48; 48; 48; 101; 48; 48; 48; 49; 195; 169; 228; 184; 173; 39; 44; 32; 34; 105; 116; 39; 115; 34; 44; 32; 39; 113; 34; 92; 39; 92; 116; 92; 120; 55; 102; 39; 93].
Proof. vm_compute. reflexivity. Qed.

(** ** Running the monad *)

Ltac unfold_M :=
  repeat progress
    unfold method_get, getitem, json_dump, json_load, mbind, M_bind, mret,
      M_ret, lift, raise, try_except, get_world, log, write_file,
      datetime_now in *.

Lemma cache_path_nonempty key : PyStr.nonempty (cache_path key) = true.
Proof.
  unfold cache_path, os_path.join.
  destruct (String.prefix "/" (key +:+ ".json")) eqn:E.
  - destruct key; [discriminate E | reflexivity].
  - reflexivity.
Qed.

(** Unfold a cache read at a cache file whose content [H] gives. *)
Ltac run_get H :=
  unfold get_cached_item, os_path.exists_; unfold_M;
  rewrite ?cache_path_nonempty; rewrite ?H; simpl; rewrite ?H; simpl.

Lemma exists_file w p data :
  files w !! p = Some data -> PyStr.nonempty p = true ->
  os_path.exists_ (VStr p) w = (Ok true, w).
Proof. intros H Hp. unfold os_path.exists_. rewrite H, Hp. reflexivity. Qed.

(** A cache read leaves the world as it found it. *)
Lemma get_cached_item_world key kind w :
  snd (get_cached_item key kind w) = w.
Proof.
  unfold get_cached_item, os_path.exists_. unfold_M.
  rewrite cache_path_nonempty.
  destruct (files w !! cache_path key) as [[v|raw|]|] eqn:E; simpl;
    rewrite ?E; try reflexivity.
  destruct (PyStr.eqb kind "description"); [destruct v; reflexivity|].
  destruct (PyStr.eqb kind "summary"); [destruct v; reflexivity|].
  destruct (PyStr.eqb kind "image"); [|reflexivity].
  destruct v; try reflexivity.
  destruct (default VNone (PyVal.dict_lookup "filename" d)); simpl;
    repeat case_match; simplify_eq; reflexivity.
Qed.

Lemma get_cached_item_missing w key kind :
  files w !! cache_path key = None ->
  get_cached_item key kind w = (Ok VNone, w).
Proof.
  intros H. unfold get_cached_item, os_path.exists_. unfold_M.
  rewrite H, andb_false_r. reflexivity.
Qed.

Lemma get_cached_item_malformed w key kind raw :
  files w !! cache_path key = Some (Malformed raw) ->
  get_cached_item key kind w = (Raise DecodeError, w).
Proof.
  intros H. run_get H. reflexivity.
Qed.

Lemma get_cached_item_text w key kind d :
  kind = "description" \/ kind = "summary" ->
  files w !! cache_path key = Some (Json (VDict d)) ->
  get_cached_item key kind w = (Ok (default VNone (PyVal.dict_lookup kind d)), w).
Proof.
  intros Hk H. destruct Hk; subst kind; run_get H; reflexivity.
Qed.

Lemma get_cached_item_no_field w key kind f d :
  field_of kind = Some f ->
  files w !! cache_path key = Some (Json (VDict d)) ->
  PyVal.dict_lookup f d = None ->
  get_cached_item key kind w = (Ok VNone, w).
Proof.
  intros Hf H Hd. unfold field_of in Hf. run_get H.
  destruct (PyStr.eqb kind "description"); [simplify_eq; rewrite Hd; reflexivity|].
  destruct (PyStr.eqb kind "summary"); [simplify_eq; rewrite Hd; reflexivity|].
  destruct (PyStr.eqb kind "image"); [simplify_eq; rewrite Hd; reflexivity|].
  discriminate Hf.
Qed.

Lemma get_cached_item_not_object w key kind f v :
  field_of kind = Some f ->
  files w !! cache_path key = Some (Json v) ->
  (forall d, v <> VDict d) ->
  get_cached_item key kind w = (Raise AttributeError, w).
Proof.
  intros Hf H Hv. unfold field_of in Hf. run_get H.
  destruct v; try (exfalso; eapply Hv; reflexivity);
    repeat case_match; simplify_eq; reflexivity.
Qed.

Lemma get_cached_item_image_hit w key d f :
  files w !! cache_path key = Some (Json (VDict d)) ->
  PyVal.dict_lookup "filename" d = Some (VStr f) ->
  os_path.exists_ (VStr f) w = (Ok true, w) ->
  get_cached_item key "image" w
  = (Ok (VTuple [VStr f; default VNone (PyVal.dict_lookup "url" d)]), w).
Proof.
  intros H Hd Hf. unfold os_path.exists_ in Hf. injection Hf as Hf.
  run_get H. rewrite Hd. simpl.
  destruct f as [|c f]; [discriminate Hf|]. simpl in *.
  rewrite Hf. reflexivity.
Qed.

Lemma get_cached_item_image_gone w key d f :
  files w !! cache_path key = Some (Json (VDict d)) ->
  PyVal.dict_lookup "filename" d = Some (VStr f) ->
  files w !! f = None ->
  get_cached_item key "image" w = (Ok VNone, w).
Proof.
  intros H Hd Hf. run_get H. rewrite Hd. simpl.
  destruct (PyStr.nonempty f); [|reflexivity]. simpl. rewrite Hf. reflexivity.
Qed.

Lemma get_cached_item_directory w key kind :
  files w !! cache_path key = Some Directory ->
  get_cached_item key kind w = (Raise IsADirectoryError, w).
Proof. intros H. run_get H. reflexivity. Qed.

(** ** C1: a cache file that cannot be read *)

(** C1, refuted as stated: the cache file of the fingerprint of
    ("interaction", "s1_Submit") holds text that is not JSON, and the
    read of that key raises the decoder's error instead of returning
    [None]. *)
Lemma get_cached_item_malformed_raises :
  files w_malformed !! cache_path (get_cache_key "interaction" "s1_Submit")
    = Some (Malformed "{")
  /\ get_cached_item (get_cache_key "interaction" "s1_Submit") "description"
       w_malformed
     = (Raise DecodeError, w_malformed).
Proof. split; vm_compute; reflexivity. Qed.

(** C1, as amended: for every cache key and kind, a cache file that is
    missing, or that holds a JSON object without the field of that kind,
    is a cache miss ([None], nothing raised); a cache file whose content
    is not JSON makes the read raise the decoder's error, and one whose
    JSON is not an object makes a read of the three kinds raise
    [AttributeError]. *)
Theorem get_cached_item_miss_or_raise :
  forall (w : world) (key kind : string),
    (files w !! cache_path key = None ->
     get_cached_item key kind w = (Ok VNone, w))
    /\ (forall d f,
          field_of kind = Some f ->
          files w !! cache_path key = Some (Json (VDict d)) ->
          PyVal.dict_lookup f d = None ->
          get_cached_item key kind w = (Ok VNone, w))
    /\ (forall raw,
          files w !! cache_path key = Some (Malformed raw) ->
          get_cached_item key kind w = (Raise DecodeError, w))
    /\ (forall v f,
          field_of kind = Some f ->
          files w !! cache_path key = Some (Json v) ->
          (forall d, v <> VDict d) ->
          get_cached_item key kind w = (Raise AttributeError, w)).
Proof.
  intros w key kind. repeat split.
  - apply get_cached_item_missing.
  - intros d f. apply get_cached_item_no_field.
  - intros raw. apply get_cached_item_malformed.
  - intros v f. apply get_cached_item_not_object.
Qed.

(** A fresh cache misses; the file with the lone brace raises. *)
Lemma get_cached_item_miss_or_raise_witness :
  get_cached_item "k" "summary" w_fresh = (Ok VNone, w_fresh)
  /\ get_cached_item (get_cache_key "interaction" "s1_Submit") "description"
       w_malformed
     = (Raise DecodeError, w_malformed).
Proof.
  split.
  - apply (proj1 (get_cached_item_miss_or_raise w_fresh "k" "summary")).
    reflexivity.
  - apply (proj1 (proj2 (proj2 (get_cached_item_miss_or_raise w_malformed
             (get_cache_key "interaction" "s1_Submit") "description")))
             "{").
    vm_compute. reflexivity.
Defined.

(** ** C3: what is written is what is read *)

Lemma cache_item_text pf key kind s w :
  kind = "description" \/ kind = "summary" ->
  cache_item pf key (VStr s) kind w
  = (Ok tt,
     World (<[cache_path key := Json (VDict [(kind, VStr s)])]> (files w))
           (fds w) (trace w)).
Proof.
  intros [-> | ->]; unfold cache_item; unfold_M; simpl;
    rewrite insert_insert_eq; reflexivity.
Qed.

Lemma cache_item_image pf key f u w :
  cache_item pf key (VTuple [VStr f; VStr u]) "image" w
  = (Ok tt,
     World (<[cache_path key :=
                Json (VDict [("filename", VStr f); ("url", VStr u);
                             ("created", VStr (now_isoformat pf (trace w)))])]>
              (files w))
           (fds w) (trace w ++ [ClockRead])).
Proof.
  unfold cache_item; unfold_M; simpl. rewrite insert_insert_eq. reflexivity.
Qed.

(** C3: a description or a summary written under a key is read back
    under that key and kind as the same string; an image entry written
    under a key is read back as the same (file path, source URL) pair
    when the file of that path exists.  The write itself succeeds. *)
Theorem cache_round_trip :
  forall (pf : platform) (w : world) (key : string),
    (forall kind s,
        kind = "description" \/ kind = "summary" ->
        exists w1,
          cache_item pf key (VStr s) kind w = (Ok tt, w1)
          /\ get_cached_item key kind w1 = (Ok (VStr s), w1))
    /\ (forall f u,
          exists w1,
            cache_item pf key (VTuple [VStr f; VStr u]) "image" w = (Ok tt, w1)
            /\ (os_path.exists_ (VStr f) w1 = (Ok true, w1) ->
                get_cached_item key "image" w1
                = (Ok (VTuple [VStr f; VStr u]), w1))).
Proof.
  intros pf w key. split.
  - intros kind s Hk. eexists. split; [apply cache_item_text, Hk|].
    erewrite get_cached_item_text; [| exact Hk | apply lookup_insert_eq].
    destruct Hk; subst kind; reflexivity.
  - intros f u. eexists. split; [apply cache_item_image|].
    intros Hf.
    rewrite (get_cached_item_image_hit _ key
               [("filename", VStr f); ("url", VStr u);
                ("created", VStr (now_isoformat pf (trace w)))] f);
      [reflexivity | apply lookup_insert_eq | reflexivity | exact Hf].
Qed.

(** A description, and an image entry whose file is on disk. *)
Lemma cache_round_trip_witness :
  (exists w1,
      cache_item pf_sample "k" (VStr "Clicked on cart") "description" w_fresh
      = (Ok tt, w1)
      /\ get_cached_item "k" "description" w1 = (Ok (VStr "Clicked on cart"), w1))
  /\ (exists w1,
        cache_item pf_sample "k" (VTuple [VStr "shot.png"; VStr "https://img.example/1"])
          "image" w_with_image
        = (Ok tt, w1)
        /\ get_cached_item "k" "image" w1
           = (Ok (VTuple [VStr "shot.png"; VStr "https://img.example/1"]), w1)).
Proof.
  split.
  - apply (proj1 (cache_round_trip pf_sample w_fresh "k")). left. reflexivity.
  - destruct (proj2 (cache_round_trip pf_sample w_with_image "k")
                "shot.png" "https://img.example/1") as [w1 [H1 H2]].
    exists w1. split; [exact H1|]. apply H2.
    rewrite cache_item_image in H1. injection H1 as <-. vm_compute. reflexivity.
Defined.

(** ** The description generator, case by case *)

Lemma bind_ok {A B : Type} (m : M A) (f : A -> M B) w a w' :
  m w = (Ok a, w') -> (m ≫= f) w = f a w'.
Proof. intros H. unfold mbind, M_bind. rewrite H. reflexivity. Qed.

Lemma bind_raise {A B : Type} (m : M A) (f : A -> M B) w e w' :
  m w = (Raise e, w') -> (m ≫= f) w = (Raise e, w').
Proof. intros H. unfold mbind, M_bind. rewrite H. reflexivity. Qed.

Lemma chat_content_ok client req w text rest :
  chat_completions_create client (trace w) req = Ok (Some text :: rest) ->
  chat_content client req w = (Ok (PyStr.strip text), called req w).
Proof. intros H. unfold chat_content. unfold_M. simpl. rewrite H. reflexivity. Qed.

Lemma chat_content_raise client req w e :
  chat_completions_create client (trace w) req = Raise e ->
  chat_content client req w = (Raise e, called req w).
Proof. intros H. unfold chat_content. unfold_M. simpl. rewrite H. reflexivity. Qed.

Lemma describe_interaction_hit pf client st w v :
  get_cached_item (describe_cache_key st) "description" w = (Ok v, w) ->
  PyVal.truthy v = true ->
  describe_interaction pf client st w = (Ok v, w).
Proof.
  intros H Hv. unfold describe_interaction.
  rewrite (bind_ok _ _ _ _ _ H), Hv. reflexivity.
Qed.

Lemma describe_interaction_fresh pf client st w v text rest :
  get_cached_item (describe_cache_key st) "description" w = (Ok v, w) ->
  PyVal.truthy v = false ->
  chat_completions_create client (trace w) (describe_request st)
    = Ok (Some text :: rest) ->
  describe_interaction pf client st w
  = (Ok (VStr (PyStr.strip text)),
     stored (describe_cache_key st) "description" (PyStr.strip text)
            (called (describe_request st) w)).
Proof.
  intros H Hv Hc. unfold describe_interaction.
  rewrite (bind_ok _ _ _ _ _ H), Hv. unfold try_except.
  rewrite (bind_ok _ _ _ _ _ (chat_content_ok _ _ _ _ _ Hc)).
  unfold mbind at 1, M_bind.
  rewrite cache_item_text by (left; reflexivity). reflexivity.
Qed.

Lemma describe_interaction_fallback pf client st w v e :
  get_cached_item (describe_cache_key st) "description" w = (Ok v, w) ->
  PyVal.truthy v = false ->
  chat_completions_create client (trace w) (describe_request st) = Raise e ->
  describe_interaction pf client st w
  = (Ok (VStr (describe_fallback st)), called (describe_request st) w).
Proof.
  intros H Hv Hc. unfold describe_interaction.
  rewrite (bind_ok _ _ _ _ _ H), Hv. unfold try_except.
  rewrite (bind_raise _ _ _ _ _ (chat_content_raise _ _ _ _ Hc)).
  reflexivity.
Qed.

Lemma get_cached_item_stored key kind s w :
  kind = "description" \/ kind = "summary" ->
  get_cached_item key kind (stored key kind s w) = (Ok (VStr s), stored key kind s w).
Proof.
  intros Hk. erewrite get_cached_item_text; [| exact Hk | apply lookup_insert_eq].
  destruct Hk; subst kind; reflexivity.
Qed.

(** On a miss the service is asked, whatever it answers. *)
Lemma describe_interaction_miss pf client st w v :
  get_cached_item (describe_cache_key st) "description" w = (Ok v, w) ->
  PyVal.truthy v = false ->
  describe_interaction pf client st w
  = match chat_completions_create client (trace w) (describe_request st) with
    | Ok (Some text :: _) =>
        (Ok (VStr (PyStr.strip text)),
         stored (describe_cache_key st) "description" (PyStr.strip text)
                (called (describe_request st) w))
    | _ => (Ok (VStr (describe_fallback st)), called (describe_request st) w)
    end.
Proof.
  intros H Hv.
  destruct (chat_completions_create client (trace w) (describe_request st))
    as [[|[text|] rest]|e] eqn:Hc.
  - unfold describe_interaction.
    rewrite (bind_ok _ _ _ _ _ H), Hv. unfold try_except, chat_content.
    unfold_M. simpl. rewrite Hc. reflexivity.
  - eapply describe_interaction_fresh; eauto.
  - unfold describe_interaction.
    rewrite (bind_ok _ _ _ _ _ H), Hv. unfold try_except, chat_content.
    unfold_M. simpl. rewrite Hc. reflexivity.
  - eapply describe_interaction_fallback; eauto.
Qed.

Lemma truthy_str s : PyVal.truthy (VStr s) = true <-> s <> "".
Proof. destruct s; simpl; split; congruence. Qed.

(** ** C2: one fingerprint, one entry *)

(** C2, refuted as stated: the service first answers with blanks, which
    strip to the empty string; that string is cached, and the second call
    on the same step asks the service again and returns its new answer. *)
Lemma describe_interaction_blank_not_reused :
  let first := describe_interaction pf_sample client_blank_first st_submit w_fresh in
  let second := describe_interaction pf_sample client_blank_first st_submit first.2 in
  first.1 = Ok (VStr "")
  /\ files first.2 !! cache_path (describe_cache_key st_submit)
     = Some (Json (VDict [("description", VStr "")]))
  /\ second.1 = Ok (VStr "Clicked on Submit")
  /\ trace second.2 = trace first.2 ++ [ChatCall (describe_request st_submit)].
Proof. vm_compute. repeat split; reflexivity. Qed.

(** C2, as amended: the fingerprint is a function of its two arguments;
    two steps with the same identifier and the same clicked-element text
    have the same description key; and when a first call misses the
    cache, gets an answer from the service and that answer is not empty
    once stripped, a second call on any step with that identifier and
    text returns the cached description and leaves the world, hence the
    list of service calls, as it was. *)
Theorem describe_interaction_second_call_hits :
  forall (pf : platform) (client : openai_client) (s1 s2 : step) (w : world)
         (v : value) (text : string) (rest : list (option string)),
    step_id s1 = step_id s2 ->
    clicked_element_of s1 = clicked_element_of s2 ->
    get_cached_item (describe_cache_key s1) "description" w = (Ok v, w) ->
    PyVal.truthy v = false ->
    chat_completions_create client (trace w) (describe_request s1)
      = Ok (Some text :: rest) ->
    PyStr.strip text <> "" ->
    (forall p d p' d', p = p' -> d = d' -> get_cache_key p d = get_cache_key p' d')
    /\ describe_cache_key s1 = describe_cache_key s2
    /\ exists w1,
         describe_interaction pf client s1 w = (Ok (VStr (PyStr.strip text)), w1)
         /\ describe_interaction pf client s2 w1
            = (Ok (VStr (PyStr.strip text)), w1).
Proof.
  intros pf client s1 s2 w v text rest Hid Htext Hget Hv Hc Hne.
  assert (Hkey : describe_cache_key s1 = describe_cache_key s2)
    by (unfold describe_cache_key; rewrite Hid, Htext; reflexivity).
  split; [intros; subst; reflexivity|]. split; [exact Hkey|].
  eexists. split.
  - eapply describe_interaction_fresh; eauto.
  - apply describe_interaction_hit.
    + rewrite <- Hkey. apply get_cached_item_stored. left. reflexivity.
    + apply truthy_str, Hne.
Qed.

(** The Submit click, then the same click recorded on another page:
    the second description comes from the cache. *)
Lemma describe_interaction_second_call_hits_witness :
  exists w1,
    describe_interaction pf_sample client_steady st_submit w_fresh
    = (Ok (VStr "Clicked on Submit"), w1)
    /\ describe_interaction pf_sample client_steady st_submit_elsewhere w1
       = (Ok (VStr "Clicked on Submit"), w1).
Proof.
  apply (describe_interaction_second_call_hits pf_sample client_steady
           st_submit st_submit_elsewhere w_fresh VNone " Clicked on Submit " []);
    try reflexivity.
  vm_compute. discriminate.
Defined.

(** ** The narrative generator, case by case *)

Lemma generate_flow_summary_hit pf client uis fd w v :
  get_cached_item (summary_key_of uis fd) "summary" w = (Ok v, w) ->
  PyVal.truthy v = true ->
  generate_flow_summary pf client uis fd w = (Ok v, w).
Proof.
  intros H Hv. unfold generate_flow_summary, summary_key_of in *.
  rewrite (bind_ok _ _ _ _ _ H), Hv. reflexivity.
Qed.

Lemma generate_flow_summary_miss pf client uis fd w v lines :
  get_cached_item (summary_key_of uis fd) "summary" w = (Ok v, w) ->
  PyVal.truthy v = false ->
  actions_list_of uis = Ok lines ->
  generate_flow_summary pf client uis fd w
  = match chat_completions_create client (trace w) (summary_request_for fd lines) with
    | Ok (Some text :: _) =>
        (Ok (VStr (PyStr.strip text)),
         stored (summary_key_of uis fd) "summary" (PyStr.strip text)
                (called (summary_request_for fd lines) w))
    | _ =>
        (Ok (VStr (summary_fallback (default "" (flow_name fd)) (length uis))),
         called (summary_request_for fd lines) w)
    end.
Proof.
  intros H Hv Hl. unfold generate_flow_summary, summary_key_of in *.
  rewrite (bind_ok _ _ _ _ _ H), Hv.
  rewrite (bind_ok (lift _) _ w lines w) by (rewrite Hl; reflexivity).
  fold (summary_request_for fd lines). unfold try_except.
  destruct (chat_completions_create client (trace w) (summary_request_for fd lines))
    as [[|[text|] rest]|e] eqn:Hc.
  - unfold chat_content. unfold_M. simpl. rewrite Hc. reflexivity.
  - rewrite (bind_ok _ _ _ _ _ (chat_content_ok _ _ _ _ _ Hc)).
    unfold mbind at 1, M_bind.
    rewrite cache_item_text by (right; reflexivity). reflexivity.
  - unfold chat_content. unfold_M. simpl. rewrite Hc. reflexivity.
  - rewrite (bind_raise _ _ _ _ _ (chat_content_raise _ _ _ _ Hc)). reflexivity.
Qed.

(** ** C5: a fallback is returned and not cached *)

(** C5: when the cache has no usable entry and the service raises, the
    description generator returns the template of the element type and
    the narrative generator returns its one-sentence fallback, and in
    both cases the files, cache files included, are exactly those of
    before. *)
Theorem fallback_is_not_cached :
  forall (pf : platform) (client : openai_client) (w : world) (e : exn),
    (forall st v,
        get_cached_item (describe_cache_key st) "description" w = (Ok v, w) ->
        PyVal.truthy v = false ->
        chat_completions_create client (trace w) (describe_request st) = Raise e ->
        exists w',
          describe_interaction pf client st w
          = (Ok (VStr (describe_fallback st)), w')
          /\ files w' = files w)
    /\ (forall uis fd v lines,
          get_cached_item (summary_key_of uis fd) "summary" w = (Ok v, w) ->
          PyVal.truthy v = false ->
          actions_list_of uis = Ok lines ->
          chat_completions_create client (trace w) (summary_request_for fd lines)
            = Raise e ->
          exists w',
            generate_flow_summary pf client uis fd w
            = (Ok (VStr (summary_fallback (default "" (flow_name fd)) (length uis))), w')
            /\ files w' = files w).
Proof.
  intros pf client w e. split.
  - intros st v H Hv Hc. eexists. split.
    + rewrite (describe_interaction_miss _ _ _ _ _ H Hv), Hc. reflexivity.
    + reflexivity.
  - intros uis fd v lines H Hv Hl Hc. eexists. split.
    + rewrite (generate_flow_summary_miss _ _ _ _ _ _ _ H Hv Hl), Hc. reflexivity.
    + reflexivity.
Qed.

(** With the service down, both fallbacks come back and no file appears. *)
Lemma fallback_is_not_cached_witness :
  (exists w',
      describe_interaction pf_sample client_down st_submit w_fresh
      = (Ok (VStr "Clicked on button: Submit"), w')
      /\ files w' = files w_fresh)
  /\ (exists w',
        generate_flow_summary pf_sample client_down [] fd_checkout w_fresh
        = (Ok (VStr "User completed flow: Checkout with 0 actions."), w')
        /\ files w' = files w_fresh).
Proof.
  split.
  - apply (proj1 (fallback_is_not_cached pf_sample client_down w_fresh
                    (ExternalError "Connection error.")) st_submit VNone);
      reflexivity.
  - apply (proj2 (fallback_is_not_cached pf_sample client_down w_fresh
                    (ExternalError "Connection error.")) [] fd_checkout VNone []);
      reflexivity.
Defined.

(** ** C6: the summary key is the flow name and the count *)

(** C6, refuted as stated: the first run caches an empty summary; the
    second run, with the same flow name and the same number of
    interactions, asks the service again and returns another text. *)
Lemma generate_flow_summary_empty_not_reused :
  let first := generate_flow_summary pf_sample client_empty_first
                 [ui_submit] fd_checkout w_fresh in
  let second := generate_flow_summary pf_sample client_empty_first
                  [ui_search] fd_checkout_other first.2 in
  flow_name fd_checkout = flow_name fd_checkout_other
  /\ length [ui_submit] = length [ui_search]
  /\ first.1 = Ok (VStr "")
  /\ files first.2 !! cache_path (summary_key_of [ui_submit] fd_checkout)
     = Some (Json (VDict [("summary", VStr "")]))
  /\ second.1 = Ok (VStr "The user paid for the cart.")
  /\ trace second.2
     = trace first.2
         ++ [ChatCall (summary_request_for fd_checkout_other
                         ["- Typed scooter in the search bar (on Home)"])].
Proof. vm_compute. repeat split; reflexivity. Qed.

(** C6, as amended: the summary key is the fingerprint of the flow name
    and the number of interactions and of nothing else, so two runs that
    agree on both have the same key; and when the first run misses the
    cache, gets an answer from the service and that answer is not empty
    once stripped, the second run returns the summary the first one
    cached, whatever its interactions and steps hold, and calls no
    service. *)
Theorem generate_flow_summary_second_run_hits :
  forall (pf : platform) (client : openai_client)
         (uis1 uis2 : list interaction) (fd1 fd2 : flow_data) (w : world)
         (v : value) (lines : list string) (text : string)
         (rest : list (option string)),
    default "" (flow_name fd1) = default "" (flow_name fd2) ->
    length uis1 = length uis2 ->
    get_cached_item (summary_key_of uis1 fd1) "summary" w = (Ok v, w) ->
    PyVal.truthy v = false ->
    actions_list_of uis1 = Ok lines ->
    chat_completions_create client (trace w) (summary_request_for fd1 lines)
      = Ok (Some text :: rest) ->
    PyStr.strip text <> "" ->
    summary_key_of uis1 fd1
    = get_cache_key "summary"
        (default "" (flow_name fd1) +:+ "_" +:+ PyStr.of_nat (length uis1))
    /\ summary_key_of uis1 fd1 = summary_key_of uis2 fd2
    /\ exists w1,
         generate_flow_summary pf client uis1 fd1 w
         = (Ok (VStr (PyStr.strip text)), w1)
         /\ generate_flow_summary pf client uis2 fd2 w1
            = (Ok (VStr (PyStr.strip text)), w1).
Proof.
  intros pf client uis1 uis2 fd1 fd2 w v lines text rest Hname Hlen Hget Hv Hl Hc Hne.
  assert (Hkey : summary_key_of uis1 fd1 = summary_key_of uis2 fd2)
    by (unfold summary_key_of; rewrite Hname, Hlen; reflexivity).
  split; [reflexivity|]. split; [exact Hkey|].
  eexists. split.
  - rewrite (generate_flow_summary_miss _ _ _ _ _ _ _ Hget Hv Hl), Hc. reflexivity.
  - apply generate_flow_summary_hit.
    + rewrite <- Hkey. apply get_cached_item_stored. right. reflexivity.
    + apply truthy_str, Hne.
Qed.

(** Two runs on flows named Checkout with one interaction each. *)
Lemma generate_flow_summary_second_run_hits_witness :
  exists w1,
    generate_flow_summary pf_sample client_steady [ui_submit] fd_checkout w_fresh
    = (Ok (VStr "Clicked on Submit"), w1)
    /\ generate_flow_summary pf_sample client_steady [ui_search] fd_checkout_other w1
       = (Ok (VStr "Clicked on Submit"), w1).
Proof.
  apply (generate_flow_summary_second_run_hits pf_sample client_steady
           [ui_submit] [ui_search] fd_checkout fd_checkout_other w_fresh VNone
           ["- Clicked on Submit (on Cart)"] " Clicked on Submit " []);
    try reflexivity.
  vm_compute. discriminate.
Defined.

(** ** C8 and C9: the fallback texts *)

(** C8: when the cache has no file for the step and the service raises,
    a click on a button whose text is Submit is described as
    "Clicked on button: Submit"; in general, for a click context whose
    element type is button, image or link the description is
    "Clicked on button: ", "Clicked on image: " or "Clicked on link: "
    followed by the element text, for any other or no element type it
    is "Interacted with: " followed by the element text, the element
    text being N/A when the click context has none; a step without a
    click context is described as "Interacted with: N/A". *)
Theorem describe_fallback_templates :
  forall (pf : platform) (client : openai_client) (st : step) (w : world)
         (e : exn),
    files w !! cache_path (describe_cache_key st) = None ->
    chat_completions_create client (trace w) (describe_request st) = Raise e ->
    let answer := (describe_interaction pf client st w).1 in
    (forall cc,
        step_clickContext st = Some cc ->
        click_elementType cc = Some "button" ->
        click_text cc = Some "Submit" ->
        answer = Ok (VStr "Clicked on button: Submit"))
    /\ (forall cc,
          step_clickContext st = Some cc ->
          let text := default "N/A" (click_text cc) in
          (click_elementType cc = Some "button" ->
           answer = Ok (VStr ("Clicked on button: " +:+ text)))
          /\ (click_elementType cc = Some "image" ->
              answer = Ok (VStr ("Clicked on image: " +:+ text)))
          /\ (click_elementType cc = Some "link" ->
              answer = Ok (VStr ("Clicked on link: " +:+ text)))
          /\ (click_elementType cc <> Some "button" ->
              click_elementType cc <> Some "image" ->
              click_elementType cc <> Some "link" ->
              answer = Ok (VStr ("Interacted with: " +:+ text))))
    /\ (step_clickContext st = None ->
        answer = Ok (VStr "Interacted with: N/A")).
Proof.
  intros pf client st w e Hfile Hc answer.
  assert (Ha : answer = Ok (VStr (describe_fallback st))).
  { unfold answer.
    rewrite (describe_interaction_miss pf client st w VNone), Hc;
      [reflexivity | apply get_cached_item_missing, Hfile | reflexivity]. }
  rewrite Ha.
  unfold describe_fallback, element_type_of, clicked_element_of, click_of, PyStr.eqb.
  split; [|split].
  - intros cc Hcc Het Ht. rewrite Hcc. simpl. rewrite Het, Ht. reflexivity.
  - intros cc Hcc. rewrite Hcc. simpl.
    split; [|split; [|split]].
    + intros ->. reflexivity.
    + intros ->. reflexivity.
    + intros ->. reflexivity.
    + intros H1 H2 H3. destruct (click_elementType cc) as [k|]; simpl.
      * rewrite !bool_decide_eq_false_2 by congruence. reflexivity.
      * reflexivity.
  - intros ->. reflexivity.
Qed.

(** The Submit button, with the service down. *)
Lemma describe_fallback_templates_witness :
  (describe_interaction pf_sample client_down st_submit w_fresh).1
  = Ok (VStr "Clicked on button: Submit").
Proof.
  apply (proj1 (describe_fallback_templates pf_sample client_down st_submit
                  w_fresh (ExternalError "Connection error.")
                  eq_refl eq_refl)
           (ClickContext (Some "Submit") (Some "button")));
    reflexivity.
Defined.

(** C9: when the cache has no file for the fingerprint of
    ("Checkout", 0) and the service raises, the summary of a flow named
    Checkout with no interaction is
    "User completed flow: Checkout with 0 actions.". *)
Theorem summary_fallback_checkout :
  forall (pf : platform) (client : openai_client) (fd : flow_data) (w : world)
         (e : exn),
    flow_name fd = Some "Checkout" ->
    files w !! cache_path (summary_key_of [] fd) = None ->
    chat_completions_create client (trace w) (summary_request_for fd []) = Raise e ->
    (generate_flow_summary pf client [] fd w).1
    = Ok (VStr "User completed flow: Checkout with 0 actions.").
Proof.
  intros pf client fd w e Hname Hfile Hc.
  rewrite (generate_flow_summary_miss pf client [] fd w VNone []), Hc;
    [| apply get_cached_item_missing, Hfile | reflexivity | reflexivity].
  rewrite Hname. reflexivity.
Qed.

(** Checkout, no interaction, with the service down. *)
Lemma summary_fallback_checkout_witness :
  (generate_flow_summary pf_sample client_down [] fd_checkout w_fresh).1
  = Ok (VStr "User completed flow: Checkout with 0 actions.").
Proof.
  apply (summary_fallback_checkout pf_sample client_down fd_checkout w_fresh
           (ExternalError "Connection error."));
    reflexivity.
Defined.

(** ** C10: an empty cached text is not a hit *)

(** C10: when the cache entry of a step holds the empty string as its
    description, the read returns that empty string, and
    [describe_interaction] then asks the service (one more chat call is
    on the trace) and returns the stripped answer, or the template when
    there is no answer, not the cached value; the same holds for a
    cached empty summary. *)
Theorem empty_cached_text_is_a_miss :
  forall (pf : platform) (client : openai_client) (w : world),
    (forall st d,
        files w !! cache_path (describe_cache_key st) = Some (Json (VDict d)) ->
        PyVal.dict_lookup "description" d = Some (VStr "") ->
        get_cached_item (describe_cache_key st) "description" w = (Ok (VStr ""), w)
        /\ exists w',
             describe_interaction pf client st w
             = (Ok (VStr
                      match chat_completions_create client (trace w)
                              (describe_request st) with
                      | Ok (Some text :: _) => PyStr.strip text
                      | _ => describe_fallback st
                      end), w')
             /\ trace w' = trace w ++ [ChatCall (describe_request st)])
    /\ (forall uis fd d lines,
          files w !! cache_path (summary_key_of uis fd) = Some (Json (VDict d)) ->
          PyVal.dict_lookup "summary" d = Some (VStr "") ->
          actions_list_of uis = Ok lines ->
          get_cached_item (summary_key_of uis fd) "summary" w = (Ok (VStr ""), w)
          /\ exists w',
               generate_flow_summary pf client uis fd w
               = (Ok (VStr
                        match chat_completions_create client (trace w)
                                (summary_request_for fd lines) with
                        | Ok (Some text :: _) => PyStr.strip text
                        | _ => summary_fallback (default "" (flow_name fd))
                                 (length uis)
                        end), w')
               /\ trace w' = trace w ++ [ChatCall (summary_request_for fd lines)]).
Proof.
  intros pf client w. split.
  - intros st d Hfile Hd.
    assert (Hget : get_cached_item (describe_cache_key st) "description" w
                   = (Ok (VStr ""), w)).
    { rewrite (get_cached_item_text w _ "description" d), Hd;
        [reflexivity | left; reflexivity | exact Hfile]. }
    split; [exact Hget|].
    rewrite (describe_interaction_miss pf client st w (VStr "") Hget eq_refl).
    destruct (chat_completions_create client (trace w) (describe_request st))
      as [[|[text|] rest]|e]; eexists; split; reflexivity.
  - intros uis fd d lines Hfile Hd Hl.
    assert (Hget : get_cached_item (summary_key_of uis fd) "summary" w
                   = (Ok (VStr ""), w)).
    { rewrite (get_cached_item_text w _ "summary" d), Hd;
        [reflexivity | right; reflexivity | exact Hfile]. }
    split; [exact Hget|].
    rewrite (generate_flow_summary_miss pf client uis fd w (VStr "") lines
               Hget eq_refl Hl).
    destruct (chat_completions_create client (trace w) (summary_request_for fd lines))
      as [[|[text|] rest]|e]; eexists; split; reflexivity.
Qed.

(** The entry of the Submit click holds an empty description. *)
Lemma empty_cached_text_is_a_miss_witness :
  get_cached_item (describe_cache_key st_submit) "description" w_blank_cached
  = (Ok (VStr ""), w_blank_cached)
  /\ exists w',
       describe_interaction pf_sample client_steady st_submit w_blank_cached
       = (Ok (VStr "Clicked on Submit"), w')
       /\ trace w' = [ChatCall (describe_request st_submit)].
Proof.
  apply (proj1 (empty_cached_text_is_a_miss pf_sample client_steady w_blank_cached)
           st_submit [("description", VStr "")]);
    reflexivity.
Defined.

(** ** C4: a cached image is only as good as its file *)

Lemma cache_path_head key :
  exists c rest, cache_path key = String c rest /\ (c = "/"%char \/ c = "c"%char).
Proof.
  unfold cache_path, os_path.join.
  destruct (String.prefix "/" (key +:+ ".json")) eqn:E.
  - destruct (key +:+ ".json") as [|c rest] eqn:Hk; [discriminate E|].
    exists c, rest. split; [reflexivity|]. left.
    cbn [String.prefix] in E.
    destruct (Ascii.ascii_dec "/" c) as [<-|]; [reflexivity|].
    discriminate E.
  - eexists _, _. split; [reflexivity|]. right. reflexivity.
Qed.

Lemma image_filename_not_cache_path key safe stamp :
  "social_media_image_" +:+ safe +:+ "_" +:+ stamp +:+ ".png" <> cache_path key.
Proof.
  destruct (cache_path_head key) as (c & rest & -> & [-> | ->]); discriminate.
Qed.

Lemma open_write_ok w path data :
  writable w path = true -> open_write path data w = write_file path data w.
Proof.
  unfold writable, open_write. intros H.
  apply andb_true_iff in H as [Hn Hd].
  apply negb_true_iff in Hn, Hd. rewrite Hn, Hd. reflexivity.
Qed.

Lemma open_write_cases w path data :
  (writable w path = false /\ exists e, open_write path data w = (Raise e, w))
  \/ (writable w path = true /\ open_write path data w = write_file path data w).
Proof.
  destruct (writable w path) eqn:H.
  - right. split; [reflexivity | apply open_write_ok, H].
  - left. split; [reflexivity|]. unfold writable, open_write in *.
    destruct (PyStr.has_nul path); [eexists; reflexivity|].
    destruct (is_directory w path); [eexists; reflexivity | discriminate H].
Qed.

(** Whatever happens in the [try] block, the image service was asked. *)
Lemma synthesize_asks pf client key prompt fd w :
  exists r w' rest,
    synthesize pf client key prompt fd w = (r, w')
    /\ trace w' = trace w ++ ImageCall (image_request_of prompt) :: rest.
Proof.
  unfold synthesize. unfold_M. simpl.
  destruct (images_generate client (trace w) (image_request_of prompt))
    as [[|[u|] more]|e]; simpl; try (by eexists _, _, _).
  destruct (requests_get pf _ u) as [resp|e]; simpl;
    [|eexists _, _, _; split; [reflexivity|]; simpl;
      rewrite <- app_assoc; reflexivity].
  destruct ((400 <=? status_code resp) && (status_code resp <? 600)); simpl.
  - eexists _, _, _. split; [reflexivity|]. simpl.
    rewrite <- app_assoc. reflexivity.
  - match goal with |- context [open_write ?p ?d ?w0] =>
      destruct (open_write_cases w0 p d) as [[_ [e He]] | [_ He]]; rewrite He
    end.
    + eexists _, _, _. split; [reflexivity|]. simpl.
      rewrite <- !app_assoc. reflexivity.
    + unfold cache_item. unfold_M. simpl.
      eexists _, _, _. split; [reflexivity|]. simpl.
      rewrite <- !app_assoc. reflexivity.
Qed.

Lemma synthesize_ok pf client key prompt fd w u more resp :
  images_generate client (trace w) (image_request_of prompt) = Ok (Some u :: more) ->
  requests_get pf (trace w ++ [ImageCall (image_request_of prompt)]) u = Ok resp ->
  (400 <=? status_code resp) && (status_code resp <? 600) = false ->
  writable w (image_filename_at pf fd (trace w) prompt u) = true ->
  exists w',
    synthesize pf client key prompt fd w
    = (Ok (VTuple [VStr (image_filename_at pf fd (trace w) prompt u); VStr u]), w')
    /\ files w' !! image_filename_at pf fd (trace w) prompt u = Some (content resp)
    /\ exists d,
         files w' !! cache_path key = Some (Json (VDict d))
         /\ PyVal.dict_lookup "filename" d
            = Some (VStr (image_filename_at pf fd (trace w) prompt u))
         /\ PyVal.dict_lookup "url" d = Some (VStr u).
Proof.
  intros Hg Hr Hs Hw. unfold synthesize. unfold_M. simpl.
  rewrite Hg. simpl. rewrite Hr. simpl. rewrite Hs. simpl.
  match goal with |- context [open_write ?p ?d ?w0] =>
    change p with (image_filename_at pf fd (trace w) prompt u);
    rewrite (open_write_ok w0 (image_filename_at pf fd (trace w) prompt u) d Hw)
  end.
  unfold cache_item. unfold_M. simpl.
  eexists. split; [reflexivity|]. simpl. split.
  - rewrite insert_insert_eq, lookup_insert_ne; [apply lookup_insert_eq|].
    intros H. symmetry in H. revert H. apply image_filename_not_cache_path.
  - eexists. split; [rewrite insert_insert_eq; apply lookup_insert_eq|].
    split; reflexivity.
Qed.

Lemma get_cached_item_image_hit_inv w key v :
  get_cached_item key "image" w = (Ok v, w) ->
  PyVal.truthy v = true ->
  exists d filename,
    files w !! cache_path key = Some (Json (VDict d))
    /\ PyVal.dict_lookup "filename" d = Some filename
    /\ os_path.exists_ filename w = (Ok true, w)
    /\ v = VTuple [filename; default VNone (PyVal.dict_lookup "url" d)].
Proof.
  intros H Hv.
  destruct (files w !! cache_path key) as [[doc|raw|]|] eqn:E.
  - destruct doc as [| | | | |d|];
      try (rewrite (get_cached_item_not_object w key "image" "filename" _ eq_refl E)
             in H by discriminate; discriminate H).
    exists d.
    destruct (PyVal.dict_lookup "filename" d) as [filename|] eqn:Hd.
    + exists filename. split; [reflexivity|]. split; [reflexivity|].
      revert H. run_get E. rewrite Hd. simpl.
      destruct filename; simpl; intros; repeat case_match; simplify_eq;
        try (simpl in Hv; discriminate Hv); split; reflexivity.
    + rewrite (get_cached_item_no_field w key "image" "filename" d eq_refl E Hd) in H.
      simplify_eq; simpl in Hv; discriminate Hv.
  - rewrite (get_cached_item_malformed w key _ _ E) in H. discriminate H.
  - rewrite (get_cached_item_directory w key _ E) in H. discriminate H.
  - rewrite (get_cached_item_missing w key _ E) in H.
    simplify_eq; simpl in Hv; discriminate Hv.
Qed.

Lemma get_cached_item_image_absent w key d f :
  files w !! cache_path key = Some (Json (VDict d)) ->
  PyVal.dict_lookup "filename" d = Some (VStr f) ->
  os_path.exists_ (VStr f) w = (Ok false, w) ->
  get_cached_item key "image" w = (Ok VNone, w).
Proof.
  intros H Hd Hf. unfold os_path.exists_ in Hf. injection Hf as Hf.
  run_get H. rewrite Hd. simpl.
  destruct (PyStr.nonempty f); [|reflexivity]. simpl in *.
  rewrite Hf. reflexivity.
Qed.

(** C4: a read of an image entry that hits returns the recorded file
    name, and [os.path.exists] holds of it; when [os.path.exists] is
    false of the recorded file name (no file and no directory is there)
    the read is a miss, [generate_social_media_image] asks the image
    service again and raises nothing; and when the service and the
    download then succeed and the new file can be opened for writing,
    the new file is written and the entry now points to it. *)
Theorem cached_image_needs_its_file :
  forall (pf : platform) (client : openai_client) (w : world),
    (forall key v,
        get_cached_item key "image" w = (Ok v, w) ->
        PyVal.truthy v = true ->
        exists d filename,
          files w !! cache_path key = Some (Json (VDict d))
          /\ PyVal.dict_lookup "filename" d = Some filename
          /\ os_path.exists_ filename w = (Ok true, w)
          /\ v = VTuple [filename; default VNone (PyVal.dict_lookup "url" d)])
    /\ (forall summary fd uis d f,
          files w !! cache_path (image_cache_key fd summary) = Some (Json (VDict d)) ->
          PyVal.dict_lookup "filename" d = Some (VStr f) ->
          os_path.exists_ (VStr f) w = (Ok false, w) ->
          let prompt := generate_image_prompt summary fd uis in
          get_cached_item (image_cache_key fd summary) "image" w = (Ok VNone, w)
          /\ (exists r w' rest,
                generate_social_media_image pf client (VStr summary) fd uis w
                = (Ok r, w')
                /\ trace w' = trace w ++ ImageCall (image_request_of prompt) :: rest)
          /\ (forall u more resp,
                images_generate client (trace w) (image_request_of prompt)
                  = Ok (Some u :: more) ->
                requests_get pf (trace w ++ [ImageCall (image_request_of prompt)]) u
                  = Ok resp ->
                (400 <=? status_code resp) && (status_code resp <? 600) = false ->
                let fresh := image_filename_at pf fd (trace w) prompt u in
                writable w fresh = true ->
                exists w',
                  generate_social_media_image pf client (VStr summary) fd uis w
                  = (Ok (VTuple [VStr fresh; VStr u]), w')
                  /\ files w' !! fresh = Some (content resp)
                  /\ get_cached_item (image_cache_key fd summary) "image" w'
                     = (Ok (VTuple [VStr fresh; VStr u]), w'))).
Proof.
  intros pf client w. split.
  - intros key v. apply get_cached_item_image_hit_inv.
  - intros summary fd uis d f Hfile Hd Hf prompt.
    pose proof (get_cached_item_image_absent w _ d f Hfile Hd Hf) as Hget.
    split; [exact Hget|].
    assert (Hrun : generate_social_media_image pf client (VStr summary) fd uis w
                   = try_except
                       (synthesize pf client (image_cache_key fd summary) prompt fd)
                       (fun _ => mret (VTuple [VNone; VNone])) w).
    { unfold generate_social_media_image.
      rewrite (bind_ok _ _ _ _ _ Hget). reflexivity. }
    split.
    + destruct (synthesize_asks pf client (image_cache_key fd summary) prompt fd w)
        as (r & w' & rest & Hs & Ht).
      rewrite Hrun. unfold try_except. rewrite Hs.
      destruct r as [r|e]; eexists _, w', rest; split; eauto.
    + intros u more resp Hg Hr Hst fresh Hopen.
      destruct (synthesize_ok pf client (image_cache_key fd summary) prompt fd w
                  u more resp Hg Hr Hst Hopen)
        as (w' & Hs & Hnew & d' & Hentry & Hname & Hurl).
      exists w'. rewrite Hrun. unfold try_except. rewrite Hs.
      split; [reflexivity|]. split; [exact Hnew|].
      rewrite (get_cached_item_image_hit w' _ d' fresh Hentry Hname), Hurl;
        [reflexivity|].
      apply (exists_file w' fresh (content resp) Hnew). reflexivity.
Qed.

(** The entry names a file that is gone: a new image is made. *)
Lemma cached_image_needs_its_file_witness :
  get_cached_item (image_cache_key fd_checkout "The user paid for the cart.")
    "image" w_stale_image
  = (Ok VNone, w_stale_image)
  /\ exists w',
       generate_social_media_image pf_sample client_steady
         (VStr "The user paid for the cart.") fd_checkout [] w_stale_image
       = (Ok (VTuple [VStr "social_media_image_Checkout_20240501_100000.png";
                      VStr "https://img.example/1"]), w')
       /\ files w' !! "social_media_image_Checkout_20240501_100000.png"
          = Some (Malformed "PNG").
Proof.
  destruct (proj2 (cached_image_needs_its_file pf_sample client_steady w_stale_image)
              "The user paid for the cart." fd_checkout []
              [("filename", VStr "social_media_image_Checkout_20240101_090000.png");
               ("url", VStr "https://img.example/0");
               ("created", VStr "2024-01-01T09:00:00")]
              "social_media_image_Checkout_20240101_090000.png"
              eq_refl eq_refl eq_refl)
    as (Hget & _ & Hnew).
  split; [exact Hget|].
  destruct (Hnew "https://img.example/1" [] (HttpResponse 200 (Malformed "PNG"))
              eq_refl eq_refl eq_refl eq_refl)
    as (w' & Hrun & Hfile & _).
  exists w'. split; [exact Hrun | exact Hfile].
Defined.

(** A recorded path that is a directory exists, so the read hits. *)
Example image_entry_naming_a_directory :
  get_cached_item (image_cache_key fd_checkout "The user paid for the cart.")
    "image" w_entry_names_directory
  = (Ok (VTuple [VStr "cache"; VStr "https://img.example/0"]),
     w_entry_names_directory).
Proof. vm_compute. reflexivity. Qed.

(** A file name with a NUL byte cannot be opened: the service and the
    download succeed, and yet the result is (None, None) and nothing is
    written. *)
Example image_file_name_with_nul :
  let out := generate_social_media_image pf_sample client_steady
               (VStr "The user paid.") fd_nul_name [] w_fresh in
  out.1 = Ok (VTuple [VNone; VNone]) /\ files out.2 = files w_fresh.
Proof. vm_compute. split; reflexivity. Qed.

(** ** C7: step numbers are ranks among the qualifying steps *)

Lemma cache_readable_get w key kind :
  cache_readable w ->
  kind = "description" \/ kind = "summary" ->
  exists v, get_cached_item key kind w = (Ok v, w).
Proof.
  intros Hw Hk.
  destruct (files w !! cache_path key) as [data|] eqn:E.
  - destruct (Hw key data E) as [d ->].
    eexists. apply get_cached_item_text; eauto.
  - eexists. apply get_cached_item_missing, E.
Qed.

Lemma cache_readable_stored key kind s w :
  cache_readable w -> cache_readable (stored key kind s w).
Proof.
  intros Hw key' data. unfold stored. simpl.
  destruct (decide (cache_path key = cache_path key')) as [<-|Hne].
  - rewrite lookup_insert_eq. intros; simplify_eq. eexists. reflexivity.
  - rewrite lookup_insert_ne by exact Hne. apply Hw.
Qed.

(** With a readable cache a description always comes back. *)
Lemma describe_interaction_total pf client st w :
  cache_readable w ->
  exists v w',
    describe_interaction pf client st w = (Ok v, w') /\ cache_readable w'.
Proof.
  intros Hw.
  destruct (cache_readable_get w (describe_cache_key st) "description" Hw)
    as [v Hget]; [left; reflexivity|].
  destruct (PyVal.truthy v) eqn:Hv.
  - exists v, w. split; [apply describe_interaction_hit; assumption | exact Hw].
  - rewrite (describe_interaction_miss pf client st w v Hget Hv).
    destruct (chat_completions_create client (trace w) (describe_request st))
      as [[|[text|] rest]|e]; eexists _, _; (split; [reflexivity|]);
      try apply cache_readable_stored; exact Hw.
Qed.

Lemma extract_loop_numbering pf client steps :
  forall acc w l w',
    extract_loop pf client steps acc w = (Ok l, w') ->
    exists new,
      l = acc ++ new
      /\ Forall2 emitted_from (List.filter qualifying steps) new
      /\ map step_number new = seq (length acc + 1) (length new).
Proof.
  induction steps as [|st steps IH]; intros acc w l w' H; simpl in H.
  - unfold_M. simplify_eq. exists []. rewrite app_nil_r. repeat constructor.
  - cbn [List.filter].
    destruct (bool_decide (step_type st = Some "CHAPTER")) eqn:Hch.
    + destruct (PyStr.nonempty (default "" (step_title st))) eqn:Ht.
      * replace (qualifying st) with true
          by (unfold qualifying; rewrite Hch, Ht; reflexivity).
        destruct (IH _ _ _ _ H) as (new & -> & Hem & Hnum).
        eexists (_ :: new). rewrite <- app_assoc. split; [reflexivity|].
        split.
        -- constructor; [|exact Hem]. unfold emitted_from.
           rewrite Hch. simpl. tauto.
        -- simpl. rewrite length_app, Nat.add_comm in Hnum. simpl in Hnum.
           rewrite Hnum, Nat.add_comm. reflexivity.
      * replace (qualifying st) with false.
        -- apply (IH _ _ _ _ H).
        -- apply bool_decide_eq_true_1 in Hch.
           unfold qualifying. rewrite Ht, Hch. reflexivity.
    + destruct (bool_decide (step_type st = Some "IMAGE")
                || bool_decide (step_type st = Some "VIDEO")) eqn:Hiv.
      * destruct (step_clickContext st) as [cc|] eqn:Hcc.
        -- replace (qualifying st) with true
             by (unfold qualifying; rewrite Hch, Hiv, Hcc; reflexivity).
           destruct (describe_interaction pf client st w) as [[v|e] w1] eqn:Hd.
           ++ rewrite (bind_ok _ _ _ _ _ Hd) in H.
              destruct (IH _ _ _ _ H) as (new & -> & Hem & Hnum).
              eexists (_ :: new). rewrite <- app_assoc. split; [reflexivity|].
              split.
              ** constructor; [|exact Hem]. unfold emitted_from.
                 rewrite Hch. simpl.
                 apply orb_true_iff in Hiv as [Hiv|Hiv];
                   apply bool_decide_eq_true_1 in Hiv; rewrite Hiv; tauto.
              ** simpl. rewrite length_app, Nat.add_comm in Hnum. simpl in Hnum.
                 rewrite Hnum, Nat.add_comm. reflexivity.
           ++ rewrite (bind_raise _ _ _ _ _ Hd) in H. discriminate H.
        -- replace (qualifying st) with false
             by (unfold qualifying; rewrite Hch, Hiv, Hcc; reflexivity).
           apply (IH _ _ _ _ H).
      * replace (qualifying st) with false
          by (unfold qualifying; rewrite Hch, Hiv; reflexivity).
        apply (IH _ _ _ _ H).
Qed.

Lemma extract_loop_total pf client steps :
  forall acc w,
    cache_readable w ->
    exists l w', extract_loop pf client steps acc w = (Ok l, w').
Proof.
  induction steps as [|st steps IH]; intros acc w Hw; simpl.
  - eexists _, _. reflexivity.
  - repeat case_match; try (apply IH; exact Hw).
    destruct (describe_interaction_total pf client st w Hw) as (v & w1 & Hd & Hw1).
    rewrite (bind_ok _ _ _ _ _ Hd). apply IH. exact Hw1.
Qed.

(** C7: whenever the extraction returns, its interactions are, in
    document order, one per qualifying step (a CHAPTER with a non-empty
    title, or an IMAGE or VIDEO with a click context), each built from
    its step, and their step numbers are 1, 2, ... without a gap; and
    the extraction does return when every cache file holds a JSON
    object. *)
Theorem extraction_numbers_qualifying_steps :
  forall (pf : platform) (client : openai_client) (fd : flow_data) (w : world),
    (forall l w',
        extract_user_interactions pf client fd w = (Ok l, w') ->
        Forall2 emitted_from (List.filter qualifying (flow_steps fd)) l
        /\ map step_number l = seq 1 (length l))
    /\ (cache_readable w ->
        exists l w', extract_user_interactions pf client fd w = (Ok l, w')).
Proof.
  intros pf client fd w. split.
  - intros l w' H.
    destruct (extract_loop_numbering pf client _ _ _ _ _ H) as (new & -> & Hem & Hn).
    split; assumption.
  - intros Hw. apply extract_loop_total, Hw.
Qed.

(** The three steps of the example: the untitled chapter takes no number. *)
Example extract_three_steps :
  (extract_user_interactions pf_sample client_steady fd_three_steps w_fresh).1
  = Ok [ Interaction 1 (VStr "Started: A") "CHAPTER" (Some "") None "" "";
         Interaction 2 (VStr "Clicked on Submit") "IMAGE" None (Some "Submit")
                     "Cart" "https://shop.example/cart" ].
Proof. vm_compute. reflexivity. Qed.

(** On a fresh cache the extraction of the three steps returns two
    interactions, numbered 1 and 2. *)
Lemma extraction_numbers_qualifying_steps_witness :
  exists l w',
    extract_user_interactions pf_sample client_steady fd_three_steps w_fresh
    = (Ok l, w')
    /\ map step_number l = [1; 2]%nat.
Proof.
  destruct (extraction_numbers_qualifying_steps pf_sample client_steady
              fd_three_steps w_fresh) as [Hnum Htotal].
  destruct Htotal as (l & w' & Hrun).
  - intros key data H. vm_compute in H. discriminate H.
  - exists l, w'. split; [exact Hrun|].
    destruct (Hnum l w' Hrun) as [Hem Hseq].
    apply Forall2_length in Hem. rewrite Hseq, <- Hem. reflexivity.
Defined.

(* ===================================================================== *)
(** * Further properties *)
(* ===================================================================== *)

Lemma string_length_append (a b : string) :
  String.length (a +:+ b) = (String.length a + String.length b)%nat.
Proof. induction a as [|c a IH]; simpl; [reflexivity | rewrite IH; reflexivity]. Qed.

Lemma string_append_cancel_r (a b s : string) : a +:+ s = b +:+ s -> a = b.
Proof.
  revert b. induction a as [|c a IH]; intros [|d b] H; simpl in H.
  - reflexivity.
  - apply (f_equal String.length) in H. simpl in H.
    rewrite !string_length_append in H. simpl in H. lia.
  - apply (f_equal String.length) in H. simpl in H.
    rewrite !string_length_append in H. simpl in H. lia.
  - injection H as -> H. f_equal. apply IH, H.
Qed.

Lemma bytes_le_length k n : length (MD5.bytes_le k n) = k.
Proof. revert n. induction k; intros n; simpl; [reflexivity | rewrite IHk; reflexivity]. Qed.

Lemma bytes_le_range k n : Forall (fun b => 0 <= b < 256) (MD5.bytes_le k n).
Proof.
  revert n. induction k; intros n; simpl; constructor.
  - apply Z.mod_pos_bound. lia.
  - apply IHk.
Qed.

Lemma hex_digit_lower n : 0 <= n < 16 -> hex_lower (MD5.hex_digit n) = true.
Proof.
  intros H. rewrite <- (Z2Nat.id n) by lia.
  assert (Hm : (Z.to_nat n < 16)%nat) by lia.
  revert Hm. generalize (Z.to_nat n) as m. intros m Hm.
  do 16 (destruct m as [|m]; [reflexivity|]). lia.
Qed.

Lemma hex_length l : String.length (MD5.hex l) = (2 * length l)%nat.
Proof. induction l; simpl; [reflexivity | rewrite IHl; lia]. Qed.

Lemma hex_lower_all l :
  Forall (fun b => 0 <= b < 256) l -> all_chars hex_lower (MD5.hex l) = true.
Proof.
  induction 1 as [|b l Hb _ IH]; simpl; [reflexivity|].
  rewrite IH, !hex_digit_lower; [reflexivity | |].
  - apply Z.mod_pos_bound. lia.
  - split; [apply Z.div_pos; lia | apply Z.div_lt_upper_bound; lia].
Qed.

Lemma digest_length msg : length (MD5.digest msg) = 16%nat.
Proof. unfold MD5.digest. rewrite !length_app, !bytes_le_length. reflexivity. Qed.

Lemma digest_range msg : Forall (fun b => 0 <= b < 256) (MD5.digest msg).
Proof. unfold MD5.digest. repeat apply Forall_app_2; apply bytes_le_range. Qed.

Lemma prefix_slash c r :
  String.prefix "/" (String c r) = bool_decide (c = "/"%char).
Proof.
  change (String.prefix "/" (String c r))
    with (if Ascii.ascii_dec "/" c then String.prefix "" r else false).
  destruct (Ascii.ascii_dec "/" c) as [<-|Hc].
  - destruct r; reflexivity.
  - symmetry. apply bool_decide_eq_false_2. congruence.
Qed.

Lemma cache_path_plain key c rest :
  key = String c rest -> c <> "/"%char ->
  cache_path key = "cache/" +:+ key +:+ ".json".
Proof.
  intros -> Hc. unfold cache_path, os_path.join.
  change (String c rest +:+ ".json") with (String c (rest +:+ ".json")).
  rewrite prefix_slash, bool_decide_eq_false_2 by exact Hc. reflexivity.
Qed.

(** X1: every fingerprint is a string of 32 lower-case hexadecimal
    digits, so its cache file is "cache/<fingerprint>.json", directly
    under the cache directory. *)
Theorem get_cache_key_is_hex_name :
  forall (prefix data : string),
    let key := get_cache_key prefix data in
    String.length key = 32%nat
    /\ all_chars hex_lower key = true
    /\ cache_path key = "cache/" +:+ key +:+ ".json".
Proof.
  intros prefix data key. unfold key, get_cache_key, MD5.hexdigest.
  set (d := MD5.digest _).
  assert (Hlen : String.length (MD5.hex d) = 32%nat)
    by (rewrite hex_length; unfold d; rewrite digest_length; reflexivity).
  assert (Hall : all_chars hex_lower (MD5.hex d) = true)
    by (apply hex_lower_all, digest_range).
  split; [exact Hlen|]. split; [exact Hall|].
  destruct (MD5.hex d) as [|c rest] eqn:E; [discriminate Hlen|].
  apply (cache_path_plain _ c rest eq_refl).
  intros ->. simpl in Hall. discriminate Hall.
Qed.

Lemma cache_path_inj k1 k2 : cache_path k1 = cache_path k2 -> k1 = k2.
Proof.
  unfold cache_path, os_path.join.
  destruct (String.prefix "/" (k1 +:+ ".json")) eqn:E1;
    destruct (String.prefix "/" (k2 +:+ ".json")) eqn:E2; intros H.
  - apply string_append_cancel_r in H. exact H.
  - exfalso. destruct (k1 +:+ ".json") as [|c r]; [discriminate E1|].
    rewrite prefix_slash in E1. apply bool_decide_eq_true_1 in E1. subst c.
    discriminate H.
  - exfalso. destruct (k2 +:+ ".json") as [|c r]; [discriminate E2|].
    rewrite prefix_slash in E2. apply bool_decide_eq_true_1 in E2. subst c.
    discriminate H.
  - simpl in H. injection H as H.
    exact (string_append_cancel_r k1 k2 ".json" H).
Qed.

(** X2: two keys have the same cache file exactly when they are the same
    key. *)
Theorem cache_path_one_file_per_key :
  forall (k1 k2 : string), cache_path k1 = cache_path k2 <-> k1 = k2.
Proof.
  intros k1 k2. split; [apply cache_path_inj | intros ->; reflexivity].
Qed.

(** X3: a cache read, whether it returns or raises, leaves the files,
    the descriptors and the list of calls as they were. *)
Theorem cache_read_changes_nothing :
  forall (key kind : string) (w : world),
    (get_cached_item key kind w).2 = w.
Proof. intros key kind w. apply get_cached_item_world. Qed.

(** A write touches the file of its key and no other. *)
Lemma cache_item_other_files pf key item kind w p :
  p <> cache_path key ->
  files (cache_item pf key item kind w).2 !! p = files w !! p.
Proof.
  intros Hp. unfold cache_item. unfold_M. simpl.
  repeat case_match; simplify_eq; simpl;
    rewrite ?lookup_insert_ne by congruence; reflexivity.
Qed.

(** What a read of a description or a summary returns is decided by the
    content of the cache file. *)
Lemma get_cached_item_text_by_file key kind w1 w2 :
  kind = "description" \/ kind = "summary" ->
  files w1 !! cache_path key = files w2 !! cache_path key ->
  (get_cached_item key kind w1).1 = (get_cached_item key kind w2).1.
Proof.
  intros Hk H.
  assert (Hf : exists f, field_of kind = Some f)
    by (destruct Hk; subst kind; eexists; reflexivity).
  destruct Hf as [f Hf].
  destruct (files w2 !! cache_path key) as [[v|raw|]|] eqn:E.
  - destruct v as [| | | | |d|];
      try (rewrite (get_cached_item_not_object w1 key kind f _ Hf H) by discriminate;
           rewrite (get_cached_item_not_object w2 key kind f _ Hf E) by discriminate;
           reflexivity).
    rewrite (get_cached_item_text w1 key kind d Hk H),
            (get_cached_item_text w2 key kind d Hk E). reflexivity.
  - rewrite (get_cached_item_malformed w1 key kind raw H),
            (get_cached_item_malformed w2 key kind raw E). reflexivity.
  - rewrite (get_cached_item_directory w1 key kind H),
            (get_cached_item_directory w2 key kind E). reflexivity.
  - rewrite (get_cached_item_missing w1 key kind H),
            (get_cached_item_missing w2 key kind E). reflexivity.
Qed.

(** X4: writing under one key, whatever the item and the kind and even
    when the write raises, does not change what a read of a description
    or a summary under another key returns. *)
Theorem cache_item_keeps_other_keys :
  forall (pf : platform) (w : world) (key key' kind kind' : string) (item : value),
    key <> key' ->
    kind' = "description" \/ kind' = "summary" ->
    (get_cached_item key' kind' (cache_item pf key item kind w).2).1
    = (get_cached_item key' kind' w).1.
Proof.
  intros pf w key key' kind kind' item Hne Hk.
  apply get_cached_item_text_by_file; [exact Hk|].
  apply cache_item_other_files. intros H. apply cache_path_inj in H. congruence.
Qed.

(** A summary written under "k" leaves the entry of the Submit click. *)
Lemma cache_item_keeps_other_keys_witness :
  (get_cached_item (describe_cache_key st_submit) "description"
     (cache_item pf_sample "k" (VStr "The user paid.") "summary" w_blank_cached).2).1
  = Ok (VStr "").
Proof.
  rewrite (cache_item_keeps_other_keys pf_sample w_blank_cached "k"
             (describe_cache_key st_submit) "summary" "description"
             (VStr "The user paid."));
    [reflexivity | vm_compute; discriminate | left; reflexivity].
Defined.

(** X5: a key holds one entry: after a text is written under a key and
    then another text under the same key, a read of the second kind
    returns the second text, and when the kinds differ a read of the
    first kind misses. *)
Theorem cache_item_last_write_wins :
  forall (pf : platform) (w : world) (key k1 k2 s1 s2 : string),
    kind_is_text k1 -> kind_is_text k2 ->
    exists w1 w2,
      cache_item pf key (VStr s1) k1 w = (Ok tt, w1)
      /\ cache_item pf key (VStr s2) k2 w1 = (Ok tt, w2)
      /\ get_cached_item key k2 w2 = (Ok (VStr s2), w2)
      /\ (k1 <> k2 -> get_cached_item key k1 w2 = (Ok VNone, w2)).
Proof.
  intros pf w key k1 k2 s1 s2 H1 H2.
  eexists _, _. split; [apply cache_item_text, H1|].
  split; [apply cache_item_text, H2|].
  split.
  - erewrite get_cached_item_text; [| exact H2 | apply lookup_insert_eq].
    destruct H2; subst k2; reflexivity.
  - intros Hne.
    erewrite get_cached_item_text; [| exact H1 | apply lookup_insert_eq].
    destruct H1, H2; subst k1 k2; try congruence; reflexivity.
Qed.

(** A description, then a summary, under the same key. *)
Lemma cache_item_last_write_wins_witness :
  exists w1 w2,
    cache_item pf_sample "k" (VStr "Clicked on cart") "description" w_fresh = (Ok tt, w1)
    /\ cache_item pf_sample "k" (VStr "The user paid.") "summary" w1 = (Ok tt, w2)
    /\ get_cached_item "k" "summary" w2 = (Ok (VStr "The user paid."), w2)
    /\ get_cached_item "k" "description" w2 = (Ok VNone, w2).
Proof.
  destruct (cache_item_last_write_wins pf_sample w_fresh "k" "description" "summary"
              "Clicked on cart" "The user paid.")
    as (w1 & w2 & H1 & H2 & H3 & H4); [left; reflexivity | right; reflexivity|].
  exists w1, w2. repeat split; try assumption. apply H4. discriminate.
Defined.

(** X6: a write whose kind is none of description, summary and image
    succeeds and leaves the cache file of the key empty, whatever it
    held; every later read of that key raises the decoder's error. *)
Theorem cache_item_unknown_kind_truncates :
  forall (pf : platform) (w : world) (key kind : string) (item : value),
    field_of kind = None ->
    exists w1,
      cache_item pf key item kind w = (Ok tt, w1)
      /\ files w1 !! cache_path key = Some (Malformed "")
      /\ forall kind', get_cached_item key kind' w1 = (Raise DecodeError, w1).
Proof.
  intros pf w key kind item Hk. unfold field_of in Hk.
  unfold cache_item. unfold_M. simpl.
  destruct (PyStr.eqb kind "description"); [discriminate Hk|].
  destruct (PyStr.eqb kind "summary"); [discriminate Hk|].
  destruct (PyStr.eqb kind "image"); [discriminate Hk|].
  eexists. split; [reflexivity|].
  assert (H : forall m : gmap string file_data,
             <[cache_path key := Malformed ""]> m !! cache_path key
             = Some (Malformed "")) by (intros; apply lookup_insert_eq).
  split; [apply H|].
  intros kind'. apply (get_cached_item_malformed _ key kind' ""). apply H.
Qed.

(** The kind "descriptions", with an s, wipes the entry of the Submit click. *)
Lemma cache_item_unknown_kind_truncates_witness :
  exists w1,
    cache_item pf_sample (describe_cache_key st_submit) (VStr "Clicked on Submit")
      "descriptions" w_blank_cached = (Ok tt, w1)
    /\ get_cached_item (describe_cache_key st_submit) "description" w1
       = (Raise DecodeError, w1).
Proof.
  destruct (cache_item_unknown_kind_truncates pf_sample w_blank_cached
              (describe_cache_key st_submit) "descriptions"
              (VStr "Clicked on Submit") eq_refl)
    as (w1 & H1 & _ & H3).
  exists w1. split; [exact H1 | apply H3].
Defined.

(** The three ways [describe_interaction] can end. *)
Lemma describe_interaction_cases pf client st w :
  let key := describe_cache_key st in
  let req := describe_request st in
  (exists e,
      get_cached_item key "description" w = (Raise e, w)
      /\ describe_interaction pf client st w = (Raise e, w))
  \/ (exists v,
        get_cached_item key "description" w = (Ok v, w)
        /\ PyVal.truthy v = true
        /\ describe_interaction pf client st w = (Ok v, w))
  \/ (exists v s w',
        get_cached_item key "description" w = (Ok v, w)
        /\ PyVal.truthy v = false
        /\ describe_interaction pf client st w = (Ok (VStr s), w')
        /\ (w' = called req w \/ w' = stored key "description" s (called req w))).
Proof.
  intros key req.
  destruct (get_cached_item key "description" w) as [[v|e] w0] eqn:Hget.
  - assert (w0 = w) by (rewrite <- (get_cached_item_world key "description" w), Hget;
                        reflexivity).
    subst w0. right.
    destruct (PyVal.truthy v) eqn:Hv.
    + left. exists v. repeat split; [exact Hv|].
      apply describe_interaction_hit; assumption.
    + right. rewrite (describe_interaction_miss pf client st w v Hget Hv).
      fold key req.
      destruct (chat_completions_create client (trace w) req)
        as [[|[text|] rest]|e]; eexists v, _, _; repeat split; eauto.
  - assert (w0 = w) by (rewrite <- (get_cached_item_world key "description" w), Hget;
                        reflexivity).
    subst w0. left. exists e. split; [reflexivity|].
    unfold describe_interaction. fold key.
    rewrite (bind_raise _ _ _ _ _ Hget). reflexivity.
Qed.

(** X7: whatever the service does, and whether it returns or raises,
    [describe_interaction] leaves the descriptors alone, adds at most
    one call, the chat request of the step, to the trace, and changes no
    file other than the cache file of the step. *)
Theorem describe_interaction_footprint :
  forall (pf : platform) (client : openai_client) (st : step) (w : world),
    let out := describe_interaction pf client st w in
    fds out.2 = fds w
    /\ (trace out.2 = trace w
        \/ trace out.2 = trace w ++ [ChatCall (describe_request st)])
    /\ (forall p, p <> cache_path (describe_cache_key st) ->
                  files out.2 !! p = files w !! p).
Proof.
  intros pf client st w out. unfold out.
  destruct (describe_interaction_cases pf client st w)
    as [(e & Hget & ->) | [(v & Hget & Hv & ->) | (v & s & w' & Hget & Hv & -> & Hw')]];
    simpl.
  - split; [reflexivity|]. split; [left; reflexivity | reflexivity].
  - split; [reflexivity|]. split; [left; reflexivity | reflexivity].
  - destruct Hw' as [-> | ->]; simpl.
    + split; [reflexivity|]. split; [right; reflexivity | reflexivity].
    + split; [reflexivity|]. split; [right; reflexivity|].
      intros p Hp. rewrite lookup_insert_ne by congruence. reflexivity.
Qed.

(** The image on disk is still there after a description was cached. *)
Lemma describe_interaction_footprint_witness :
  files (describe_interaction pf_sample client_steady st_submit w_with_image).2
    !! "shot.png"
  = Some (Malformed "PNG").
Proof.
  rewrite (proj2 (proj2 (describe_interaction_footprint pf_sample client_steady
                           st_submit w_with_image)) "shot.png");
    [reflexivity | vm_compute; discriminate].
Defined.

(** X8: when the service answers with no choice, or with a first choice
    that has no content, the template of the element type is returned
    and no file is written, as when the service raises. *)
Theorem describe_interaction_no_answer :
  forall (pf : platform) (client : openai_client) (st : step) (w : world)
         (v : value) (choices : list (option string)),
    get_cached_item (describe_cache_key st) "description" w = (Ok v, w) ->
    PyVal.truthy v = false ->
    chat_completions_create client (trace w) (describe_request st) = Ok choices ->
    head choices = None \/ head choices = Some None ->
    exists w',
      describe_interaction pf client st w = (Ok (VStr (describe_fallback st)), w')
      /\ files w' = files w.
Proof.
  intros pf client st w v choices Hget Hv Hc Hhead.
  rewrite (describe_interaction_miss pf client st w v Hget Hv), Hc.
  destruct choices as [|[text|] rest]; simpl in Hhead;
    try (destruct Hhead; discriminate);
    eexists; split; reflexivity.
Qed.

(** One choice without content. *)
Lemma describe_interaction_no_answer_witness :
  exists w',
    describe_interaction pf_sample client_silent st_submit w_fresh
    = (Ok (VStr "Clicked on button: Submit"), w')
    /\ files w' = files w_fresh.
Proof.
  apply (describe_interaction_no_answer pf_sample client_silent st_submit w_fresh
           VNone [None]); try reflexivity.
  right. reflexivity.
Defined.

(** X9: the description key depends on the identifier and the element
    text only through "<id>_<text>": two steps for which this string is
    the same, whatever their identifiers and texts, share one cache
    entry, and the second is described by the non-empty answer cached
    for the first, without a call. *)
Theorem describe_cache_key_joins_id_and_text :
  forall (pf : platform) (client : openai_client) (s1 s2 : step) (w : world)
         (v : value) (text : string) (rest : list (option string)),
    default "" (step_id s1) +:+ "_" +:+ clicked_element_of s1
    = default "" (step_id s2) +:+ "_" +:+ clicked_element_of s2 ->
    get_cached_item (describe_cache_key s1) "description" w = (Ok v, w) ->
    PyVal.truthy v = false ->
    chat_completions_create client (trace w) (describe_request s1)
      = Ok (Some text :: rest) ->
    PyStr.strip text <> "" ->
    describe_cache_key s1 = describe_cache_key s2
    /\ exists w1,
         describe_interaction pf client s1 w = (Ok (VStr (PyStr.strip text)), w1)
         /\ describe_interaction pf client s2 w1
            = (Ok (VStr (PyStr.strip text)), w1).
Proof.
  intros pf client s1 s2 w v text rest Hcat Hget Hv Hc Hne.
  assert (Hkey : describe_cache_key s1 = describe_cache_key s2)
    by (unfold describe_cache_key; rewrite Hcat; reflexivity).
  split; [exact Hkey|].
  eexists. split.
  - eapply describe_interaction_fresh; eauto.
  - apply describe_interaction_hit.
    + rewrite <- Hkey. apply get_cached_item_stored. left. reflexivity.
    + apply truthy_str, Hne.
Qed.

(** save_as + draft and save + as_draft. *)
Lemma describe_cache_key_joins_id_and_text_witness :
  exists w1,
    describe_interaction pf_sample client_steady st_save_as w_fresh
    = (Ok (VStr "Clicked on Submit"), w1)
    /\ describe_interaction pf_sample client_steady st_as_draft w1
       = (Ok (VStr "Clicked on Submit"), w1).
Proof.
  apply (describe_cache_key_joins_id_and_text pf_sample client_steady
           st_save_as st_as_draft w_fresh VNone " Clicked on Submit " []);
    try reflexivity.
  vm_compute. discriminate.
Defined.

Lemma chapter_needs_no_description st :
  step_type st = Some "CHAPTER" -> needs_description st = false.
Proof. intros H. unfold needs_description. rewrite H. reflexivity. Qed.

Lemma extract_loop_calls pf client steps :
  forall acc w,
    let out := extract_loop pf client steps acc w in
    fds out.2 = fds w
    /\ exists reqs,
         trace out.2 = trace w ++ map ChatCall reqs
         /\ sublist reqs (map describe_request (List.filter needs_description steps)).
Proof.
  induction steps as [|st steps IH]; intros acc w; simpl.
  - split; [reflexivity|]. exists []. rewrite app_nil_r. split; [reflexivity|].
    constructor.
  - destruct (bool_decide (step_type st = Some "CHAPTER")) eqn:Hch.
    + apply bool_decide_eq_true_1 in Hch.
      rewrite (chapter_needs_no_description st Hch).
      destruct (PyStr.nonempty (default "" (step_title st))); apply IH.
    + unfold needs_description at 1.
      destruct (bool_decide (step_type st = Some "IMAGE")
                || bool_decide (step_type st = Some "VIDEO")) eqn:Hiv;
        [|apply IH].
      destruct (step_clickContext st) as [cc|] eqn:Hcc; [|apply IH].
      cbn [andb bool_decide map].
      replace (bool_decide (is_Some (Some cc))) with true by reflexivity.
      cbn [map].
      destruct (describe_interaction_cases pf client st w)
        as [(e & _ & Hd) | [(v & _ & _ & Hd) | (v & s & w' & _ & _ & Hd & Hw')]].
      * rewrite (bind_raise _ _ _ _ _ Hd). simpl. split; [reflexivity|].
        exists []. rewrite app_nil_r. split; [reflexivity | apply sublist_nil_l].
      * rewrite (bind_ok _ _ _ _ _ Hd).
        match goal with |- context [extract_loop pf client steps ?a w] =>
          destruct (IH a w) as (Hf & reqs & Ht & Hs) end.
        split; [exact Hf|]. exists reqs. split; [exact Ht|].
        apply sublist_cons, Hs.
      * rewrite (bind_ok _ _ _ _ _ Hd).
        match goal with |- context [extract_loop pf client steps ?a w'] =>
          destruct (IH a w') as (Hf & reqs & Ht & Hs) end.
        assert (Hw : fds w' = fds w
                     /\ trace w' = trace w ++ [ChatCall (describe_request st)])
          by (destruct Hw' as [-> | ->]; split; reflexivity).
        destruct Hw as [Hfw Htw].
        split; [rewrite Hf; exact Hfw|].
        exists (describe_request st :: reqs). split.
        -- rewrite Ht, Htw, <- app_assoc. reflexivity.
        -- apply sublist_skip, Hs.
Qed.

(** X10: whether it returns or raises, the extraction leaves the
    descriptors alone and adds to the trace only chat requests of IMAGE
    and VIDEO steps with a click context, in document order and at most
    one per such step. *)
Theorem extraction_asks_once_per_click :
  forall (pf : platform) (client : openai_client) (fd : flow_data) (w : world),
    let out := extract_user_interactions pf client fd w in
    fds out.2 = fds w
    /\ exists reqs,
         trace out.2 = trace w ++ map ChatCall reqs
         /\ sublist reqs
              (map describe_request (List.filter needs_description (flow_steps fd))).
Proof. intros pf client fd w. apply extract_loop_calls. Qed.

Lemma extract_loop_cached pf client steps w :
  (forall st, In st steps -> needs_description st = true ->
     exists v, get_cached_item (describe_cache_key st) "description" w = (Ok v, w)
               /\ PyVal.truthy v = true) ->
  forall acc, exists l, extract_loop pf client steps acc w = (Ok l, w).
Proof.
  induction steps as [|st steps IH]; intros Hall acc; simpl.
  - eexists. reflexivity.
  - assert (IH' := IH (fun st' Hin => Hall st' (or_intror Hin))).
    destruct (bool_decide (step_type st = Some "CHAPTER")).
    + destruct (PyStr.nonempty (default "" (step_title st))); apply IH'.
    + destruct (bool_decide (step_type st = Some "IMAGE")
                || bool_decide (step_type st = Some "VIDEO")) eqn:Hiv;
        [|apply IH'].
      destruct (step_clickContext st) as [cc|] eqn:Hcc; [|apply IH'].
      destruct (Hall st (or_introl eq_refl)) as (v & Hget & Hv).
      { unfold needs_description. rewrite Hiv, Hcc. reflexivity. }
      rewrite (bind_ok _ _ _ _ _ (describe_interaction_hit pf client st w v Hget Hv)).
      apply IH'.
Qed.

(** X11: when every IMAGE or VIDEO step with a click context has a
    true-valued cached description (in particular when the flow has no
    such step), the extraction returns one interaction per qualifying
    step and leaves the world untouched: no call, no write. *)
Theorem extraction_from_cache_only :
  forall (pf : platform) (client : openai_client) (fd : flow_data) (w : world),
    (forall st, In st (flow_steps fd) -> needs_description st = true ->
       exists v, get_cached_item (describe_cache_key st) "description" w = (Ok v, w)
                 /\ PyVal.truthy v = true) ->
    exists l,
      extract_user_interactions pf client fd w = (Ok l, w)
      /\ length l = length (List.filter qualifying (flow_steps fd)).
Proof.
  intros pf client fd w Hall.
  destruct (extract_loop_cached pf client (flow_steps fd) w Hall []) as [l Hl].
  exists l. split; [exact Hl|].
  destruct (extract_loop_numbering pf client _ _ _ _ _ Hl) as (new & -> & Hem & _).
  symmetry. apply (Forall2_length _ _ _ Hem).
Qed.

(** The Checkout flow with its click already described, the service down. *)
Lemma extraction_from_cache_only_witness :
  exists l,
    extract_user_interactions pf_sample client_down fd_checkout w_submit_cached
    = (Ok l, w_submit_cached)
    /\ length l = 2%nat.
Proof.
  apply (extraction_from_cache_only pf_sample client_down fd_checkout w_submit_cached).
  intros st [<- | [<- | []]] Hn; [discriminate Hn|].
  exists (VStr "Pressed Submit"). split; reflexivity.
Defined.

(** X12: the summary key of the interactions that an extraction returns
    is the fingerprint of the flow name and the number of qualifying
    steps of the flow. *)
Theorem summary_key_after_extraction :
  forall (pf : platform) (client : openai_client) (fd : flow_data) (w w' : world)
         (l : list interaction),
    extract_user_interactions pf client fd w = (Ok l, w') ->
    summary_key_of l fd
    = get_cache_key "summary"
        (default "" (flow_name fd) +:+ "_"
           +:+ PyStr.of_nat (length (List.filter qualifying (flow_steps fd)))).
Proof.
  intros pf client fd w w' l H.
  destruct (extract_loop_numbering pf client _ _ _ _ _ H) as (new & -> & Hem & _).
  unfold summary_key_of, summary_cache_key. simpl.
  rewrite (Forall2_length _ _ _ Hem). reflexivity.
Qed.

(** The three steps of the example: two of them qualify. *)
Lemma summary_key_after_extraction_witness :
  summary_key_of
    [ Interaction 1 (VStr "Started: A") "CHAPTER" (Some "") None "" "";
      Interaction 2 (VStr "Clicked on Submit") "IMAGE" None (Some "Submit")
                  "Cart" "https://shop.example/cart" ]
    fd_three_steps
  = get_cache_key "summary" "Demo_2".
Proof.
  apply (summary_key_after_extraction pf_sample client_steady fd_three_steps w_fresh
           (extract_user_interactions pf_sample client_steady fd_three_steps w_fresh).2).
  vm_compute. reflexivity.
Defined.

Lemma action_line_of_text i a :
  action i = VStr a -> action_line i = Ok (action_line_text a (page i)).
Proof.
  intros Ha. unfold action_line, action_line_text. rewrite Ha. simpl.
  destruct (PyStr.nonempty (page i)); [|reflexivity].
  destruct (PyStr.contains (page i) a); reflexivity.
Qed.

Lemma actions_list_of_texts uis texts :
  map action_text_of uis = map Some texts ->
  actions_list_of uis
  = Ok (map (fun i => action_line_text (default "" (action_text_of i)) (page i)) uis).
Proof.
  revert texts. induction uis as [|i uis IH]; intros [|a texts] H; simpl in H;
    try discriminate H; [reflexivity|].
  injection H as Ha H. simpl.
  unfold action_text_of in Ha |- * at 1.
  destruct (action i) eqn:E; try discriminate Ha. injection Ha as ->.
  rewrite (action_line_of_text i a E), (IH texts H). reflexivity.
Qed.

Lemma action_line_raise i e : action_line i = Raise e -> e = TypeError.
Proof.
  unfold action_line, str_in.
  destruct (PyStr.nonempty (page i)); [|discriminate].
  destruct (action i); repeat case_match; intros; simplify_eq; reflexivity.
Qed.

Lemma actions_list_of_raise uis i :
  In i uis -> action_line i = Raise TypeError ->
  actions_list_of uis = Raise TypeError.
Proof.
  induction uis as [|j uis IH]; intros Hin Hi; [destruct Hin|]. simpl.
  destruct (action_line j) as [line|e] eqn:Hj.
  - destruct Hin as [-> | Hin]; [congruence|]. rewrite (IH Hin Hi). reflexivity.
  - rewrite (action_line_raise j e Hj). reflexivity.
Qed.

(** X13: on a cache miss, an interaction whose action is None, a boolean
    or a number (a cached description that is not a text) and whose page
    is not empty makes [generate_flow_summary] raise TypeError before
    any call, the world unchanged. *)
Theorem generate_flow_summary_type_error :
  forall (pf : platform) (client : openai_client) (uis : list interaction)
         (fd : flow_data) (w : world) (v : value) (i : interaction),
    get_cached_item (summary_key_of uis fd) "summary" w = (Ok v, w) ->
    PyVal.truthy v = false ->
    In i uis ->
    no_membership (action i) = true ->
    page i <> "" ->
    generate_flow_summary pf client uis fd w = (Raise TypeError, w).
Proof.
  intros pf client uis fd w v i Hget Hv Hin Ha Hp.
  assert (Hi : action_line i = Raise TypeError).
  { unfold action_line. destruct (page i); [congruence|]. simpl.
    destruct (action i); try discriminate Ha; reflexivity. }
  unfold generate_flow_summary, summary_key_of in *.
  rewrite (bind_ok _ _ _ _ _ Hget), Hv.
  rewrite (bind_raise (lift _) _ w TypeError w);
    [reflexivity | unfold lift; rewrite (actions_list_of_raise uis i Hin Hi); reflexivity].
Qed.

(** The cached description 7 becomes the action, and the summary raises. *)
Lemma generate_flow_summary_type_error_witness :
  (extract_user_interactions pf_sample client_down (FlowData (Some "Checkout") [st_submit])
     w_number_cached).1
  = Ok [ Interaction 1 (VInt 7) "IMAGE" None (Some "Submit") "Cart"
                     "https://shop.example/cart" ]
  /\ generate_flow_summary pf_sample client_down
       [ Interaction 1 (VInt 7) "IMAGE" None (Some "Submit") "Cart"
                     "https://shop.example/cart" ]
       (FlowData (Some "Checkout") [st_submit]) w_number_cached
     = (Raise TypeError, w_number_cached).
Proof.
  split; [vm_compute; reflexivity|].
  apply (generate_flow_summary_type_error pf_sample client_down _ _ w_number_cached
           VNone
           (Interaction 1 (VInt 7) "IMAGE" None (Some "Submit") "Cart"
                        "https://shop.example/cart"));
    try reflexivity.
  - left. reflexivity.
  - discriminate.
Defined.

(** X14: on a cache miss with actions that are all strings,
    [generate_flow_summary] returns a string and does not raise; it asks
    the service once, with one line "- <action>" per interaction,
    followed by " (on <page>)" when the page is not empty and does not
    occur in the action; it changes no file other than the cache file of
    the summary key. *)
Theorem generate_flow_summary_with_text_actions :
  forall (pf : platform) (client : openai_client) (uis : list interaction)
         (fd : flow_data) (w : world) (v : value) (texts : list string),
    map action_text_of uis = map Some texts ->
    get_cached_item (summary_key_of uis fd) "summary" w = (Ok v, w) ->
    PyVal.truthy v = false ->
    let lines :=
      map (fun i => action_line_text (default "" (action_text_of i)) (page i)) uis in
    exists s w',
      generate_flow_summary pf client uis fd w = (Ok (VStr s), w')
      /\ trace w' = trace w ++ [ChatCall (summary_request_for fd lines)]
      /\ fds w' = fds w
      /\ forall p, p <> cache_path (summary_key_of uis fd) ->
                   files w' !! p = files w !! p.
Proof.
  intros pf client uis fd w v texts Ht Hget Hv lines.
  rewrite (generate_flow_summary_miss pf client uis fd w v lines Hget Hv
             (actions_list_of_texts uis texts Ht)).
  destruct (chat_completions_create client (trace w) (summary_request_for fd lines))
    as [[|[text|] rest]|e]; eexists _, _; (split; [reflexivity|]); simpl;
    repeat split; auto.
  intros p Hp. rewrite lookup_insert_ne by congruence. reflexivity.
Qed.

(** One action off its page, one that names it. *)
Lemma generate_flow_summary_with_text_actions_witness :
  exists s w',
    generate_flow_summary pf_sample client_steady [ui_submit; ui_page_in_action]
      fd_checkout w_fresh = (Ok (VStr s), w')
    /\ trace w'
       = [ChatCall (summary_request_for fd_checkout
                      ["- Clicked on Submit (on Cart)"; "- Opened the Cart page"])].
Proof.
  destruct (generate_flow_summary_with_text_actions pf_sample client_steady
              [ui_submit; ui_page_in_action] fd_checkout w_fresh VNone
              ["Clicked on Submit"; "Opened the Cart page"]
              eq_refl eq_refl eq_refl)
    as (s & w' & Hrun & Htrace & _).
  exists s, w'. split; [exact Hrun | exact Htrace].
Defined.

(** X15: a cached summary that is true-valued and not a string is
    returned by [generate_flow_summary] as it is, and
    [generate_social_media_image] called with it raises AttributeError
    with the world unchanged. *)
Theorem cached_summary_is_not_checked :
  forall (pf : platform) (client : openai_client) (uis : list interaction)
         (fd : flow_data) (w : world) (d : list (string * value)) (v : value),
    files w !! cache_path (summary_key_of uis fd) = Some (Json (VDict d)) ->
    PyVal.dict_lookup "summary" d = Some v ->
    PyVal.truthy v = true ->
    (forall s, v <> VStr s) ->
    generate_flow_summary pf client uis fd w = (Ok v, w)
    /\ generate_social_media_image pf client v fd uis w = (Raise AttributeError, w).
Proof.
  intros pf client uis fd w d v Hfile Hd Hv Hs. split.
  - apply generate_flow_summary_hit; [|exact Hv].
    rewrite (get_cached_item_text w _ "summary" d), Hd;
      [reflexivity | right; reflexivity | exact Hfile].
  - destruct v; try reflexivity. exfalso. apply (Hs s). reflexivity.
Qed.

(** A cached summary that is a list. *)
Lemma cached_summary_is_not_checked_witness :
  generate_flow_summary pf_sample client_steady [] fd_checkout w_summary_list
  = (Ok (VList [VStr "The user paid."]), w_summary_list)
  /\ generate_social_media_image pf_sample client_steady
       (VList [VStr "The user paid."]) fd_checkout [] w_summary_list
     = (Raise AttributeError, w_summary_list).
Proof.
  apply (cached_summary_is_not_checked pf_sample client_steady [] fd_checkout
           w_summary_list [("summary", VList [VStr "The user paid."])]);
    try reflexivity.
  intros s. discriminate.
Defined.

(** A [try] block that raises has written nothing. *)
Lemma synthesize_raise_files pf client key prompt fd w e w1 :
  synthesize pf client key prompt fd w = (Raise e, w1) ->
  files w1 = files w /\ fds w1 = fds w.
Proof.
  unfold synthesize. unfold_M. simpl.
  destruct (images_generate client (trace w) (image_request_of prompt))
    as [[|[u|] more]|e0]; simpl; try (intros H; simplify_eq; split; reflexivity).
  destruct (requests_get pf _ u) as [resp|e0]; simpl;
    try (intros H; simplify_eq; split; reflexivity).
  destruct ((400 <=? status_code resp) && (status_code resp <? 600)); simpl;
    try (intros H; simplify_eq; split; reflexivity).
  match goal with |- context [open_write ?p ?d ?w0] =>
    destruct (open_write_cases w0 p d) as [[_ [e1 He]] | [_ He]]; rewrite He
  end.
  - intros H. simplify_eq. split; reflexivity.
  - unfold cache_item. unfold_M. simpl. intros H. discriminate H.
Qed.

Lemma generate_social_media_image_miss pf client summary fd uis w v :
  get_cached_item (image_cache_key fd summary) "image" w = (Ok v, w) ->
  PyVal.truthy v = false ->
  generate_social_media_image pf client (VStr summary) fd uis w
  = try_except
      (synthesize pf client (image_cache_key fd summary)
         (generate_image_prompt summary fd uis) fd)
      (fun _ => mret (VTuple [VNone; VNone])) w.
Proof.
  intros Hget Hv. unfold generate_social_media_image.
  rewrite (bind_ok _ _ _ _ _ Hget), Hv. reflexivity.
Qed.

(** X16: when the cache has no usable image entry and the [try] block of
    [generate_social_media_image] raises, the result is (None, None) and
    the files are those of before: no image file, no cache entry. *)
Theorem failed_image_writes_nothing :
  forall (pf : platform) (client : openai_client) (summary : string)
         (fd : flow_data) (uis : list interaction) (w w1 : world) (v : value)
         (e : exn),
    get_cached_item (image_cache_key fd summary) "image" w = (Ok v, w) ->
    PyVal.truthy v = false ->
    synthesize pf client (image_cache_key fd summary)
      (generate_image_prompt summary fd uis) fd w = (Raise e, w1) ->
    generate_social_media_image pf client (VStr summary) fd uis w
    = (Ok (VTuple [VNone; VNone]), w1)
    /\ files w1 = files w.
Proof.
  intros pf client summary fd uis w w1 v e Hget Hv Hs. split.
  - rewrite (generate_social_media_image_miss pf client summary fd uis w v Hget Hv).
    unfold try_except. rewrite Hs. reflexivity.
  - apply (synthesize_raise_files _ _ _ _ _ _ _ _ Hs).
Qed.

(** The image service is down. *)
Lemma failed_image_writes_nothing_witness :
  exists w1,
    generate_social_media_image pf_sample client_down
      (VStr "The user paid for the cart.") fd_checkout [] w_fresh
    = (Ok (VTuple [VNone; VNone]), w1)
    /\ files w1 = files w_fresh.
Proof.
  eexists.
  apply (failed_image_writes_nothing pf_sample client_down
           "The user paid for the cart." fd_checkout [] w_fresh _ VNone
           (ExternalError "Connection error."));
    reflexivity.
Defined.

(** X17: when the download is answered with a status from 400 to 599,
    the result is (None, None), no file is written, and the trace holds
    the image request and the download. *)
Theorem image_download_status_is_checked :
  forall (pf : platform) (client : openai_client) (summary : string)
         (fd : flow_data) (uis : list interaction) (w : world) (v : value)
         (u : string) (more : list (option string)) (resp : http_response),
    let req := image_request_of (generate_image_prompt summary fd uis) in
    get_cached_item (image_cache_key fd summary) "image" w = (Ok v, w) ->
    PyVal.truthy v = false ->
    images_generate client (trace w) req = Ok (Some u :: more) ->
    requests_get pf (trace w ++ [ImageCall req]) u = Ok resp ->
    400 <= status_code resp < 600 ->
    exists w1,
      generate_social_media_image pf client (VStr summary) fd uis w
      = (Ok (VTuple [VNone; VNone]), w1)
      /\ files w1 = files w
      /\ trace w1 = trace w ++ [ImageCall req; HttpGet u].
Proof.
  intros pf client summary fd uis w v u more resp req Hget Hv Hg Hr Hst.
  rewrite (generate_social_media_image_miss pf client summary fd uis w v Hget Hv).
  fold req. unfold try_except, synthesize. unfold_M. simpl.
  fold req. rewrite Hg. simpl. rewrite Hr. simpl.
  replace ((400 <=? status_code resp) && (status_code resp <? 600)) with true
    by (symmetry; apply andb_true_iff; split;
        [apply Z.leb_le | apply Z.ltb_lt]; lia).
  simpl. eexists. split; [reflexivity|]. simpl. split; [reflexivity|].
  rewrite <- app_assoc. reflexivity.
Qed.

(** The download is answered 404. *)
Lemma image_download_status_is_checked_witness :
  exists w1,
    generate_social_media_image pf_not_found client_steady
      (VStr "The user paid for the cart.") fd_checkout [] w_fresh
    = (Ok (VTuple [VNone; VNone]), w1)
    /\ files w1 = files w_fresh.
Proof.
  destruct (image_download_status_is_checked pf_not_found client_steady
              "The user paid for the cart." fd_checkout [] w_fresh VNone
              "https://img.example/1" [] (HttpResponse 404 (Malformed "Not Found"))
              eq_refl eq_refl eq_refl eq_refl)
    as (w1 & Hrun & Hfiles & _).
  - simpl. lia.
  - exists w1. split; assumption.
Defined.

(** X18: when [generate_social_media_image] misses the cache, the
    service and the download succeed and the image file can be opened
    for writing, it returns the new file name with the URL and writes
    the downloaded bytes there; a second call with the same summary and
    any flow of the same name then returns that same pair and leaves
    the world untouched. *)
Theorem image_is_reused_after_success :
  forall (pf : platform) (client : openai_client) (summary : string)
         (fd fd' : flow_data) (uis uis' : list interaction) (w : world) (v : value)
         (u : string) (more : list (option string)) (resp : http_response),
    let prompt := generate_image_prompt summary fd uis in
    let fresh := image_filename_at pf fd (trace w) prompt u in
    get_cached_item (image_cache_key fd summary) "image" w = (Ok v, w) ->
    PyVal.truthy v = false ->
    images_generate client (trace w) (image_request_of prompt) = Ok (Some u :: more) ->
    requests_get pf (trace w ++ [ImageCall (image_request_of prompt)]) u = Ok resp ->
    (400 <=? status_code resp) && (status_code resp <? 600) = false ->
    writable w fresh = true ->
    default "" (flow_name fd') = default "" (flow_name fd) ->
    exists w1,
      generate_social_media_image pf client (VStr summary) fd uis w
      = (Ok (VTuple [VStr fresh; VStr u]), w1)
      /\ files w1 !! fresh = Some (content resp)
      /\ generate_social_media_image pf client (VStr summary) fd' uis' w1
         = (Ok (VTuple [VStr fresh; VStr u]), w1).
Proof.
  intros pf client summary fd fd' uis uis' w v u more resp prompt fresh
         Hget Hv Hg Hr Hst Hopen Hname.
  destruct (synthesize_ok pf client (image_cache_key fd summary) prompt fd w
              u more resp Hg Hr Hst Hopen)
    as (w1 & Hs & Hnew & d & Hentry & Hfile & Hurl).
  exists w1. split; [|split; [exact Hnew|]].
  - rewrite (generate_social_media_image_miss pf client summary fd uis w v Hget Hv).
    unfold try_except. fold prompt. rewrite Hs. reflexivity.
  - assert (Hkey : image_cache_key fd' summary = image_cache_key fd summary)
      by (unfold image_cache_key; rewrite Hname; reflexivity).
    unfold generate_social_media_image. rewrite Hkey.
    erewrite bind_ok;
      [| apply (get_cached_item_image_hit w1 _ d _ Hentry Hfile);
         apply (exists_file w1 _ (content resp) Hnew); reflexivity].
    rewrite Hurl. reflexivity.
Qed.

(** Two flows named Checkout, one summary, one image. *)
Lemma image_is_reused_after_success_witness :
  exists w1,
    generate_social_media_image pf_sample client_steady
      (VStr "The user paid for the cart.") fd_checkout [ui_submit] w_fresh
    = (Ok (VTuple [VStr "social_media_image_Checkout_20240501_100000.png";
                   VStr "https://img.example/1"]), w1)
    /\ files w1 !! "social_media_image_Checkout_20240501_100000.png"
       = Some (Malformed "PNG")
    /\ generate_social_media_image pf_sample client_steady
         (VStr "The user paid for the cart.") fd_checkout_other [ui_search] w1
       = (Ok (VTuple [VStr "social_media_image_Checkout_20240501_100000.png";
                      VStr "https://img.example/1"]), w1).
Proof.
  apply (image_is_reused_after_success pf_sample client_steady
           "The user paid for the cart." fd_checkout fd_checkout_other
           [ui_submit] [ui_search] w_fresh VNone "https://img.example/1" []
           (HttpResponse 200 (Malformed "PNG")));
    reflexivity.
Defined.

Lemma replace_char_avoids a b s :
  a <> b -> all_chars (fun c => negb (Ascii.eqb c a)) (PyStr.replace_char a b s) = true.
Proof.
  intros Hab. induction s as [|c s IH]; simpl; [reflexivity|].
  rewrite IH, andb_true_r.
  destruct (Ascii.eqb c a) eqn:E.
  - apply negb_true_iff, Ascii.eqb_neq. congruence.
  - rewrite E. reflexivity.
Qed.

Lemma replace_char_keeps P a b s :
  P b = true -> all_chars P s = true -> all_chars P (PyStr.replace_char a b s) = true.
Proof.
  intros Hb. induction s as [|c s IH]; simpl; [reflexivity|].
  intros H. apply andb_true_iff in H as [Hc Hs]. rewrite (IH Hs), andb_true_r.
  destruct (Ascii.eqb c a); assumption.
Qed.

Lemma replace_char_absent a b s :
  all_chars (fun c => negb (Ascii.eqb c a)) s = true -> PyStr.replace_char a b s = s.
Proof.
  induction s as [|c s IH]; simpl; [reflexivity|].
  intros H. apply andb_true_iff in H as [Hc Hs]. rewrite (IH Hs).
  apply negb_true_iff in Hc. rewrite Hc. reflexivity.
Qed.

Lemma take_keeps P n s :
  all_chars P s = true -> all_chars P (PyStr.take n s) = true.
Proof.
  revert n. induction s as [|c s IH]; intros n; simpl; [reflexivity|].
  intros H. apply andb_true_iff in H as [Hc Hs].
  destruct (PyStr.is_continuation c); simpl; [rewrite Hc, (IH n Hs); reflexivity|].
  destruct n; simpl; [reflexivity | rewrite Hc, (IH n Hs); reflexivity].
Qed.

Lemma take_count n s : (code_point_count (PyStr.take n s) <= n)%nat.
Proof.
  revert n. induction s as [|c s IH]; intros n; simpl; [lia|].
  destruct (PyStr.is_continuation c) eqn:E; simpl; rewrite ?E; [apply IH|].
  destruct n; simpl; rewrite ?E; [lia|]. specialize (IH n). lia.
Qed.

Lemma take_short n s : (code_point_count s <= n)%nat -> PyStr.take n s = s.
Proof.
  revert n. induction s as [|c s IH]; intros n; simpl; [reflexivity|].
  destruct (PyStr.is_continuation c); intros H; [rewrite (IH n H); reflexivity|].
  destruct n; [lia|]. rewrite (IH n); [reflexivity | lia].
Qed.

Lemma all_chars_and P Q s :
  all_chars P s = true -> all_chars Q s = true ->
  all_chars (fun c => P c && Q c) s = true.
Proof.
  induction s as [|c s IH]; simpl; [reflexivity|].
  intros HP HQ. apply andb_true_iff in HP as [-> HP], HQ as [-> HQ].
  rewrite (IH HP HQ). reflexivity.
Qed.

Lemma all_chars_and_inv P Q s :
  all_chars (fun c => P c && Q c) s = true ->
  all_chars P s = true /\ all_chars Q s = true.
Proof.
  induction s as [|c s IH]; simpl; [split; reflexivity|].
  intros H. apply andb_true_iff in H as [Hc Hs].
  apply andb_true_iff in Hc as [-> ->]. destruct (IH Hs) as [-> ->].
  split; reflexivity.
Qed.

(** X19: the flow name used in the image file name holds neither a
    space nor a slash and has at most 30 code points; a flow name that
    already is like that is used unchanged. *)
Theorem flow_name_safe_is_a_file_name :
  forall (fd : flow_data),
    all_chars filename_char (flow_name_safe_of fd) = true
    /\ (code_point_count (flow_name_safe_of fd) <= 30)%nat
    /\ (forall name,
          flow_name fd = Some name ->
          all_chars filename_char name = true ->
          (code_point_count name <= 30)%nat ->
          flow_name_safe_of fd = name).
Proof.
  intros fd. unfold flow_name_safe_of. split; [|split].
  - apply take_keeps. unfold filename_char. apply all_chars_and.
    + apply replace_char_keeps; [reflexivity|].
      apply replace_char_avoids. discriminate.
    + apply replace_char_avoids. discriminate.
  - apply take_count.
  - intros name -> Hc Hn. simpl.
    apply all_chars_and_inv in Hc as [Hsp Hsl].
    rewrite (replace_char_absent " " "_" name Hsp),
            (replace_char_absent "/" "_" name Hsl).
    apply take_short, Hn.
Qed.

(** Checkout is used as it is. *)
Lemma flow_name_safe_is_a_file_name_witness :
  flow_name_safe_of fd_checkout = "Checkout".
Proof.
  apply (proj2 (proj2 (flow_name_safe_is_a_file_name fd_checkout)) "Checkout");
    [reflexivity | reflexivity | vm_compute; lia].
Defined.

Lemma prefix_cons a s1 b s2 :
  String.prefix (String a s1) (String b s2)
  = if Ascii.ascii_dec a b then String.prefix s1 s2 else false.
Proof. reflexivity. Qed.

Lemma prefix_lower a s :
  String.prefix a s = true -> String.prefix (PyStr.lower a) (PyStr.lower s) = true.
Proof.
  revert s. induction a as [|c a IH]; intros s; [destruct s; reflexivity|].
  destruct s as [|d s]; [discriminate|].
  rewrite prefix_cons. destruct (Ascii.ascii_dec c d) as [<-|]; [|discriminate].
  intros H. cbn [PyStr.lower]. rewrite prefix_cons.
  destruct (Ascii.ascii_dec (PyStr.lower_char c) (PyStr.lower_char c));
    [apply IH, H | congruence].
Qed.

Lemma contains_lower a s :
  PyStr.contains a s = true -> PyStr.contains (PyStr.lower a) (PyStr.lower s) = true.
Proof.
  induction s as [|d s IH]; cbn [PyStr.contains PyStr.lower]; intros H;
    apply orb_true_iff in H as [H|H]; try discriminate H;
    apply orb_true_iff.
  - left. apply (prefix_lower a ""), H.
  - left. apply (prefix_lower a (String d s)), H.
  - right. apply IH, H.
Qed.

Lemma prefix_refl a : String.prefix a a = true.
Proof.
  induction a as [|c a IH]; [reflexivity|]. rewrite prefix_cons.
  destruct (Ascii.ascii_dec c c); [exact IH | congruence].
Qed.

Lemma prefix_app a s t : String.prefix a s = true -> String.prefix a (s +:+ t) = true.
Proof.
  revert s. induction a as [|c a IH]; intros s; [destruct s, t; reflexivity|].
  destruct s as [|d s]; [discriminate|].
  change (String d s +:+ t) with (String d (s +:+ t)). rewrite !prefix_cons.
  destruct (Ascii.ascii_dec c d); [apply IH | discriminate].
Qed.

Lemma contains_app_l sub s t :
  PyStr.contains sub s = true -> PyStr.contains sub (s +:+ t) = true.
Proof.
  induction s as [|d s IH]; cbn [PyStr.contains]; intros H;
    apply orb_true_iff in H as [H|H]; try discriminate H.
  - destruct sub; [|discriminate H]. destruct t; reflexivity.
  - change (String d s +:+ t) with (String d (s +:+ t)). cbn [PyStr.contains].
    apply orb_true_iff. left. apply (prefix_app sub (String d s) t), H.
  - change (String d s +:+ t) with (String d (s +:+ t)). cbn [PyStr.contains].
    apply orb_true_iff. right. apply IH, H.
Qed.

Lemma contains_app_r sub s t :
  PyStr.contains sub s = true -> PyStr.contains sub (t +:+ s) = true.
Proof.
  intros H. induction t as [|d t IH]; [exact H|].
  change (String d t +:+ s) with (String d (t +:+ s)). cbn [PyStr.contains].
  apply orb_true_iff. right. exact IH.
Qed.

Lemma contains_refl s : PyStr.contains s s = true.
Proof.
  destruct s; [reflexivity|]. cbn [PyStr.contains].
  rewrite prefix_refl. reflexivity.
Qed.

Lemma contains_join sub sep l x :
  In x l -> PyStr.contains sub x = true ->
  PyStr.contains sub (PyStr.join sep l) = true.
Proof.
  induction l as [|y l IH]; intros Hin Hx; [destruct Hin|].
  destruct l as [|z l].
  - destruct Hin as [-> | []]. exact Hx.
  - change (PyStr.join sep (y :: z :: l))
      with (y +:+ sep +:+ PyStr.join sep (z :: l)).
    destruct Hin as [-> | Hin].
    + apply contains_app_l, Hx.
    + apply contains_app_r, contains_app_r, IH; assumption.
Qed.

(** A theme that was picked is named in the prompt. *)
Lemma theme_in_prompt summary fd uis theme :
  In theme (key_themes_of (PyStr.lower summary)) ->
  PyStr.contains theme (generate_image_prompt summary fd uis) = true.
Proof.
  intros Hin. unfold generate_image_prompt.
  eapply contains_join; [do 4 right; left; reflexivity|].
  apply contains_app_r.
  destruct (key_themes_of (PyStr.lower summary)) as [|t ts] eqn:E; [destruct Hin|].
  eapply contains_join; [exact Hin | apply contains_refl].
Qed.

(** X20: the image prompt names the theme "modern scooter" when the
    summary holds "scooter" in any mix of upper and lower case,
    "online shopping" for "shopping" or "cart", "retail shopping
    experience" for "target", and asks for the theme "user journey"
    when the lower-cased summary holds none of the four words. *)
Theorem image_prompt_themes :
  forall (summary : string) (fd : flow_data) (uis : list interaction),
    let prompt := generate_image_prompt summary fd uis in
    (forall word,
        PyStr.lower word = "scooter" -> PyStr.contains word summary = true ->
        PyStr.contains "modern scooter" prompt = true)
    /\ (forall word,
          PyStr.lower word = "shopping" \/ PyStr.lower word = "cart" ->
          PyStr.contains word summary = true ->
          PyStr.contains "online shopping" prompt = true)
    /\ (forall word,
          PyStr.lower word = "target" -> PyStr.contains word summary = true ->
          PyStr.contains "retail shopping experience" prompt = true)
    /\ (PyStr.contains "scooter" (PyStr.lower summary) = false ->
        PyStr.contains "shopping" (PyStr.lower summary) = false ->
        PyStr.contains "cart" (PyStr.lower summary) = false ->
        PyStr.contains "target" (PyStr.lower summary) = false ->
        PyStr.contains "- Represent the theme of: user journey" prompt = true).
Proof.
  intros summary fd uis prompt. unfold prompt. repeat split.
  - intros word Hw Hc. apply theme_in_prompt. apply contains_lower in Hc.
    rewrite Hw in Hc. unfold key_themes_of. rewrite Hc. left. reflexivity.
  - intros word Hw Hc. apply theme_in_prompt. apply contains_lower in Hc.
    unfold key_themes_of. apply in_or_app. right. apply in_or_app. left.
    destruct Hw as [Hw|Hw]; rewrite Hw in Hc; rewrite Hc, ?orb_true_r;
      left; reflexivity.
  - intros word Hw Hc. apply theme_in_prompt. apply contains_lower in Hc.
    rewrite Hw in Hc. unfold key_themes_of. rewrite Hc.
    apply in_or_app. right. apply in_or_app. right. left. reflexivity.
  - intros H1 H2 H3 H4. unfold generate_image_prompt, key_themes_of.
    rewrite H1, H2, H3, H4.
    eapply contains_join; [do 4 right; left; reflexivity|]. apply contains_refl.
Qed.

(** A capitalised Scooter; and a summary with none of the words. *)
Lemma image_prompt_themes_witness :
  PyStr.contains "modern scooter"
    (generate_image_prompt "The user bought a Scooter." fd_checkout []) = true
  /\ PyStr.contains "- Represent the theme of: user journey"
       (generate_image_prompt "The user paid." fd_checkout []) = true.
Proof.
  split.
  - apply (proj1 (image_prompt_themes "The user bought a Scooter." fd_checkout [])
             "Scooter"); reflexivity.
  - apply (proj2 (proj2 (proj2 (image_prompt_themes "The user paid." fd_checkout []))));
      reflexivity.
Defined.
